(** * Go build helper on the Dagger engine: model and properties

    The Go sources build lazy Dagger query objects ([*Container],
    [*Directory], [*File], [*Service]): every [With...] method returns a
    new object whose query is the receiver's query extended by one call.
    The objects are therefore embedded as the call chains themselves, and
    what a chain denotes (working directory, environment, mounts, ...) is
    read off by the observation functions of [Dagger].

    Go pointers may be nil: a [*Container] is an [option Container], and a
    method call through nil is a panic of the calling goroutine. *)

From Stdlib Require Import String Ascii List Arith Bool Lia.
From Stdlib Require Import DecimalNat DecimalString.
Import ListNotations.
Open Scope list_scope.
Open Scope string_scope.

(** Method chains [r.F(a).G(b)] are written [r |> F a |> G b]. *)
Notation "r |> f" := (f r) (at level 68, left associativity, only parsing).

(** Go's [error] interface value: [None] is nil. *)
Definition error := option string.

(* ------------------------------------------------------------------ *)
(** ** The Dagger objects *)

Inductive CacheSharingMode := Shared | Private | Locked.

Inductive CacheVolume := dag_CacheVolume (key : string).

Inductive Container :=
| dag_Container
| From (address : string) (r : Container)
| WithMountedCache (path : string) (cache : CacheVolume)
    (sharing : option CacheSharingMode) (r : Container)
| WithMountedDirectory (path : string) (source : Directory) (r : Container)
| WithDirectory (path : string) (directory : Directory) (r : Container)
| WithWorkdir (path : string) (r : Container)
| WithEnvVariable (name value : string) (r : Container)
| WithServiceBinding (alias : string) (service : Service) (r : Container)
| WithExposedPort (port : nat) (r : Container)
| WithExec (args : list string) (insecureRootCapabilities : bool)
    (r : Container)
| WithNewFile (path : string) (r : Container)
with Directory :=
| dag_Directory
| LoadedDirectory (id : string)
| Container_Directory (path : string) (r : Container)
| Directory_Directory (path : string) (r : Directory)
| Git_Branch_Tree (url branch : string)
| WithFile (path : string) (source : File) (r : Directory)
with File :=
| Container_File (path : string) (r : Container)
with Service :=
| AsService (r : Container).

Module Dagger.

(** What occupies a mount point of a container. *)
Inductive Mount :=
| MountedCache (cache : CacheVolume) (sharing : CacheSharingMode)
| MountedDirectory (source : Directory).

Definition key (cache : CacheVolume) : string :=
  match cache with dag_CacheVolume k => k end.

(** A cache mounted without options is shared (the engine's default). *)
Definition sharing_mode (o : option CacheSharingMode) : CacheSharingMode :=
  match o with Some m => m | None => Shared end.

(** Mounting at a path replaces whatever was mounted there. *)
Definition set_mount (path : string) (m : Mount)
  (table : list (string * Mount)) : list (string * Mount) :=
  (filter (fun e => negb (String.eqb (fst e) path)) table ++ [(path, m)])%list.

Fixpoint Mounts (r : Container) : list (string * Mount) :=
  match r with
  | dag_Container => []
  | WithMountedCache path cache sharing r' =>
      set_mount path (MountedCache cache (sharing_mode sharing)) (Mounts r')
  | WithMountedDirectory path source r' =>
      set_mount path (MountedDirectory source) (Mounts r')
  | From _ r' | WithDirectory _ _ r' | WithWorkdir _ r'
  | WithEnvVariable _ _ r' | WithServiceBinding _ _ r'
  | WithExposedPort _ r' | WithExec _ _ r' | WithNewFile _ r' => Mounts r'
  end.

(** The cache volumes a container references, in mount order. *)
Definition CacheVolumes (r : Container) : list CacheVolume :=
  flat_map (fun e => match snd e with
                     | MountedCache cache _ => [cache]
                     | MountedDirectory _ => []
                     end) (Mounts r).

(** The image the chain starts from. *)
Fixpoint Image (r : Container) : option string :=
  match r with
  | dag_Container => None
  | From address _ => Some address
  | WithMountedCache _ _ _ r' | WithMountedDirectory _ _ r'
  | WithDirectory _ _ r' | WithWorkdir _ r' | WithEnvVariable _ _ r'
  | WithServiceBinding _ _ r' | WithExposedPort _ r' | WithExec _ _ r'
  | WithNewFile _ r' => Image r'
  end.

(** The working directory set by the chain; [None] when the chain leaves
    it to the image. *)
Fixpoint Workdir (r : Container) : option string :=
  match r with
  | dag_Container | From _ _ => None
  | WithWorkdir path _ => Some path
  | WithMountedCache _ _ _ r' | WithMountedDirectory _ _ r'
  | WithDirectory _ _ r' | WithEnvVariable _ _ r'
  | WithServiceBinding _ _ r' | WithExposedPort _ r' | WithExec _ _ r'
  | WithNewFile _ r' => Workdir r'
  end.

(** The value the chain gives an environment variable; [None] when the
    chain does not set it. *)
Fixpoint EnvVariable (name : string) (r : Container) : option string :=
  match r with
  | dag_Container | From _ _ => None
  | WithEnvVariable n v r' =>
      if String.eqb n name then Some v else EnvVariable name r'
  | WithMountedCache _ _ _ r' | WithMountedDirectory _ _ r'
  | WithDirectory _ _ r' | WithWorkdir _ r'
  | WithServiceBinding _ _ r' | WithExposedPort _ r' | WithExec _ _ r'
  | WithNewFile _ r' => EnvVariable name r'
  end.

(** The directory the chain last put at [path], either written into the
    file system ([WithDirectory]) or mounted ([WithMountedDirectory]). *)
Fixpoint TreeAt (path : string) (r : Container) : option Directory :=
  match r with
  | dag_Container | From _ _ => None
  | WithDirectory p d r' | WithMountedDirectory p d r' =>
      if String.eqb p path then Some d else TreeAt path r'
  | WithMountedCache _ _ _ r' | WithWorkdir _ r' | WithEnvVariable _ _ r'
  | WithServiceBinding _ _ r' | WithExposedPort _ r' | WithExec _ _ r'
  | WithNewFile _ r' => TreeAt path r'
  end.

(** The service bound under [alias]. *)
Fixpoint ServiceBinding (alias : string) (r : Container) : option Service :=
  match r with
  | dag_Container | From _ _ => None
  | WithServiceBinding a s r' =>
      if String.eqb a alias then Some s else ServiceBinding alias r'
  | WithMountedCache _ _ _ r' | WithMountedDirectory _ _ r'
  | WithDirectory _ _ r' | WithWorkdir _ r' | WithEnvVariable _ _ r'
  | WithExposedPort _ r' | WithExec _ _ r' | WithNewFile _ r' =>
      ServiceBinding alias r'
  end.

(** Ports exposed by the chain, first exposed first. *)
Fixpoint ExposedPorts (r : Container) : list nat :=
  match r with
  | dag_Container => []
  | WithExposedPort port r' => (ExposedPorts r' ++ [port])%list
  | From _ r' | WithMountedCache _ _ _ r' | WithMountedDirectory _ _ r'
  | WithDirectory _ _ r' | WithWorkdir _ r' | WithEnvVariable _ _ r'
  | WithServiceBinding _ _ r' | WithExec _ _ r' | WithNewFile _ r' =>
      ExposedPorts r'
  end.

(** One executed command: its arguments, whether it runs with insecure
    root capabilities, and the container state it runs on. *)
Record Exec := {
  exec_args : list string;
  exec_insecure : bool;
  exec_on : Container
}.

(** Commands executed by the chain, first executed first. *)
Fixpoint Execs (r : Container) : list Exec :=
  match r with
  | dag_Container => []
  | WithExec args insecure r' =>
      (Execs r' ++ [{| exec_args := args; exec_insecure := insecure;
                       exec_on := r' |}])%list
  | From _ r' | WithMountedCache _ _ _ r' | WithMountedDirectory _ _ r'
  | WithDirectory _ _ r' | WithWorkdir _ r' | WithEnvVariable _ _ r'
  | WithServiceBinding _ _ r' | WithExposedPort _ r' | WithNewFile _ r' =>
      Execs r'
  end.

(** Number of calls in a chain. *)
Fixpoint depth (r : Container) : nat :=
  match r with
  | dag_Container => 0
  | From _ r' | WithMountedCache _ _ _ r' | WithMountedDirectory _ _ r'
  | WithDirectory _ _ r' | WithWorkdir _ r' | WithEnvVariable _ _ r'
  | WithServiceBinding _ _ r' | WithExposedPort _ r' | WithExec _ _ r'
  | WithNewFile _ r' => S (depth r')
  end.

Definition service_container (s : Service) : Container :=
  match s with AsService r => r end.

End Dagger.

(* ------------------------------------------------------------------ *)
(** ** The engine and the host *)

(** The engine answers the blocking calls.  Endpoint resolution is
    indexed by the number of resolutions already made in the session, so
    that successive resolutions may answer differently. *)
Record Engine := {
  Service_Endpoint : nat -> Service -> string -> string * error;
  Container_Stdout : Container -> string * error;
  Container_Sync : Container -> error;
  Directory_Read : Directory -> list string * error
}.

(** [runtime.GOARCH] and [runtime.GOOS] of the process running the module. *)
Record Runtime := {
  runtime_GOARCH : string;
  runtime_GOOS : string
}.

(* ------------------------------------------------------------------ *)
(** ** Go computations: state, panics, the standard logger *)

Inductive Outcome (S A : Type) :=
| Returns (a : A) (s : S)
| Panics (reason : string) (s : S).
Arguments Returns {S A} a s.
Arguments Panics {S A} reason s.

Definition Go (S A : Type) : Type := S -> Outcome S A.

Definition ret {S A} (a : A) : Go S A := fun s => Returns a s.

Definition bind {S A B} (m : Go S A) (k : A -> Go S B) : Go S B :=
  fun s => match m s with
           | Returns a s' => k a s'
           | Panics reason s' => Panics reason s'
           end.

Definition panic {S A} (reason : string) : Go S A :=
  fun s => Panics reason s.

Notation "x <- m ;; k" := (bind m (fun x => k))
  (at level 100, m at next level, right associativity).
Notation "' pat <- m ;; k" := (bind m (fun x => match x with pat => k end))
  (at level 100, pat pattern, m at next level, right associativity).
Notation "m ;; k" := (bind m (fun _ => k))
  (at level 100, right associativity).

(** A method call [p.F(...)] through the pointer [p]: nil panics. *)
Definition call {S A B} (p : option A) (F : A -> B) : Go S B :=
  match p with
  | Some r => ret (F r)
  | None => panic "invalid memory address or nil pointer dereference"
  end.

(** The SDK refuses a nil object passed as argument [name]. *)
Definition assertNotNil {S A} (name : string) (p : option A) : Go S A :=
  match p with
  | Some a => ret a
  | None => panic ("unexpected nil pointer for argument " ++ name)
  end.

(** What the standard logger was asked to print. *)
Inductive LogLine :=
| log_Println (v : string)
| log_Printf (format : string).

(** The Build State: [type Golang struct { Ctr *Container; Proj *Directory }]. *)
Record Golang := {
  Ctr : option Container;
  Proj : option Directory
}.

(** A session: the receiver [g] every method works on, the log written
    so far, and the number of endpoint resolutions made so far. *)
Record Session := {
  this : Golang;
  logged : list LogLine;
  resolutions : nat
}.

Definition get_this : Go Session Golang := fun s => Returns (this s) s.

Definition set_this (g : Golang) : Go Session unit :=
  fun s => Returns tt {| this := g; logged := logged s;
                         resolutions := resolutions s |}.

Definition set_Ctr (c : option Container) : Go Session unit :=
  g <- get_this ;; set_this {| Ctr := c; Proj := Proj g |}.

Definition set_Proj (d : option Directory) : Go Session unit :=
  g <- get_this ;; set_this {| Ctr := Ctr g; Proj := d |}.

Definition log (l : LogLine) : Go Session unit :=
  fun s => Returns tt {| this := this s; logged := (logged s ++ [l])%list;
                         resolutions := resolutions s |}.

(** [svc.Endpoint(ctx, ServiceEndpointOpts{Scheme: scheme})]. *)
Definition Endpoint (engine : Engine) (svc : Service) (scheme : string)
  : Go Session (string * error) :=
  fun s => Returns (Service_Endpoint engine (resolutions s) svc scheme)
             {| this := this s; logged := logged s;
                resolutions := S (resolutions s) |}.

(* ------------------------------------------------------------------ *)
(** ** src/golang/main.go *)

Module golang.

Definition DEFAULT_GO := "1.23.4".
Definition PROJ_MOUNT := "/src".
Definition LINT_IMAGE := "golangci/golangci-lint:latest".
Definition OUT_DIR := "/out/".

(** [Service]: a container running dockerd, as a service.  The receiver
    is not used. *)
Definition Service (dockerVersion : string) : Service :=
  let port := 2375 in
  dag_Container
  |> From ("docker:" ++ dockerVersion ++ "-dind")
  |> WithMountedCache "/var/lib/docker"
       (dag_CacheVolume (dockerVersion ++ "-docker-lib")) (Some Private)
  |> WithExposedPort port
  |> WithExec ["dockerd"; "--host=tcp://0.0.0.0:2375";
               "--host=unix:///var/run/docker.sock"; "--tls=false"] true
  |> AsService.

(** [Base]: sets up the container with a golang image and cache volumes.
    The first chain already calls [g.Proj.Directory("vendor")], before the
    nil test on [g.Proj].  The returned pointer is the receiver. *)
Definition Base (version : string) : Go Session unit :=
  let mod_ := dag_CacheVolume "gomodcache" in
  let build := dag_CacheVolume "gobuildcache" in
  let image := "golang:" ++ version in
  g <- get_this ;;
  vendor <- call (Proj g) (Directory_Directory "vendor") ;;
  let c := dag_Container
           |> From image
           |> WithMountedCache "/go/pkg/mod" mod_ None
           |> WithMountedCache "/root/.cache/go-build" build None
           |> WithMountedDirectory "/src/vendor" vendor
           |> WithEnvVariable "GOFLAGS" "-mod=vendor" in
  (match Proj g with
   | None =>
       log (log_Println
              "⚠️ Warning: g.Proj is nil in Base(). Defaulting to /src.") ;;
       set_Proj (Some (c |> Container_Directory PROJ_MOUNT))
   | Some _ => ret tt
   end) ;;
  g <- get_this ;;
  vendor <- call (Proj g) (Directory_Directory "vendor") ;;
  let c := c
           |> WithMountedDirectory "/src/vendor" vendor
           |> WithEnvVariable "GOFLAGS" "-mod=vendor" in
  set_Ctr (Some c).

(** [New]: [g := &Golang{}] starts from the zero Build State. *)
Definition New (ctr : option Container) (proj : option Directory)
  : Go Session unit :=
  set_this {| Ctr := None; Proj := None |} ;;
  ctr <- (match ctr with
          | None => Base DEFAULT_GO ;; g <- get_this ;; ret (Ctr g)
          | Some _ => ret ctr
          end) ;;
  set_Ctr ctr ;;
  match proj with
  | Some _ => set_Proj proj
  | None =>
      log (log_Println
             "⚠️ Warning: proj is nil in New(). Defaulting to /src.") ;;
      d <- call ctr (Container_Directory PROJ_MOUNT) ;;
      set_Proj (Some d)
  end.

(** [WithProject], [WithContainer]: setters returning the receiver. *)
Definition WithProject (dir : option Directory) : Go Session unit :=
  set_Proj dir.

Definition WithContainer (ctr : option Container) : Go Session unit :=
  set_Ctr ctr.

(** [Project]: the go project directory. *)
Definition Project : Go Session Directory :=
  g <- get_this ;;
  call (Ctr g) (Container_Directory PROJ_MOUNT).

Section Engine.

Variable engine : Engine.
Variable host : Runtime.

(** [Attach]: binds a fresh dockerd service to [container]. *)
Definition Attach (container : option Container)
  : Go Session (option Container * error) :=
  let dockerd := Service "24.0" in
  '(dockerHost, err) <- Endpoint engine dockerd "tcp" ;;
  match err with
  | Some _ => ret (None, err)
  | None =>
      c <- call container
             (fun r => r |> WithServiceBinding "docker" dockerd
                         |> WithEnvVariable "DOCKER_HOST" dockerHost) ;;
      ret (Some c, None)
  end.

(** [prepare]: the [c] handed to [Attach] is overwritten by what [Attach]
    returns, also when [err] is not nil. *)
Definition prepare : Go Session (option Container) :=
  g <- get_this ;;
  directory <- assertNotNil "directory" (Proj g) ;;
  c <- call (Ctr g)
         (fun r => r |> WithDirectory PROJ_MOUNT directory
                     |> WithWorkdir PROJ_MOUNT) ;;
  '(c, err) <- Attach (Some c) ;;
  (match err with
   | Some msg => log (log_Printf msg)
   | None => ret tt
   end) ;;
  ret c.

(** [Build]: builds the Go project. *)
Definition Build (source : option Directory) (args : list string)
  (arch os : string) : Go Session Directory :=
  let arch := if String.eqb arch "" then runtime_GOARCH host else arch in
  let os := if String.eqb os "" then runtime_GOOS host else os in
  (match source with
   | Some _ => WithProject source
   | None => ret tt
   end) ;;
  let command := (["go"; "build"; "-o"; OUT_DIR] ++ args)%list in
  c <- prepare ;;
  call c (fun r => r |> WithEnvVariable "GOARCH" arch
                     |> WithEnvVariable "GOOS" os
                     |> WithExec command false
                     |> Container_Directory OUT_DIR).

(** [BuildContainer]: the build copied into a base container. *)
Definition BuildContainer (source : option Directory) (args : list string)
  (arch os : string) (base : option Container) : Go Session Container :=
  dir <- Build source args arch os ;;
  let base := match base with
              | Some r => r
              | None => dag_Container |> From "ubuntu:latest"
              end in
  ret (base |> WithDirectory "/usr/local/bin/" dir).

(** [Test]: runs go test and reads its standard output. *)
Definition Test (source : option Directory)
  (component coverageLocation timeout : string)
  : Go Session (string * error) :=
  (match source with
   | Some _ => WithProject source
   | None =>
       log (log_Println
              "⚠️ Warning: source is nil in Test. Using default project.") ;;
       g <- get_this ;;
       d <- call (Ctr g) (Container_Directory PROJ_MOUNT) ;;
       WithProject (Some d)
   end) ;;
  let command := ["go"; "test"; component; "-coverprofile"; coverageLocation;
                  "-timeout"; timeout; "-v"] in
  c <- prepare ;;
  call c (fun r => Container_Stdout engine (r |> WithExec command false)).

(** [Vulncheck]: installs govulncheck, stores the container it was
    installed in as the current one, and runs the scanner on a container
    prepared from it. *)
Definition Vulncheck (source : option Directory) (component : string)
  : Go Session (string * error) :=
  (match source with
   | Some _ => WithProject source
   | None => ret tt
   end) ;;
  c <- prepare ;;
  installed <- call c
    (WithExec ["go"; "install";
               "golang.org/x/vuln/cmd/govulncheck@latest"] false) ;;
  set_Ctr (Some installed) ;;
  c <- prepare ;;
  call c (fun r => Container_Stdout engine
                     (r |> WithExec ["govulncheck"; "-C"; component] false)).

(** [GolangciLint]: lints the project in the lint image. *)
Definition GolangciLint (source : option Directory)
  (component timeout : string) : Go Session (string * error) :=
  (match source with
   | Some _ => WithProject source
   | None =>
       log (log_Println
         "⚠️ Warning: source is nil in GolangciLint. Using default project.") ;;
       g <- get_this ;;
       d <- call (Ctr g) (Container_Directory PROJ_MOUNT) ;;
       WithProject (Some d)
   end) ;;
  g <- get_this ;;
  source <- assertNotNil "source" (Proj g) ;;
  ret (Container_Stdout engine
         (dag_Container
          |> From LINT_IMAGE
          |> WithMountedDirectory PROJ_MOUNT source
          |> WithWorkdir (PROJ_MOUNT ++ "/" ++ component)
          |> WithExec ["golangci-lint"; "run"; "-v"; "--timeout"; timeout]
               false)).

(** [BuildRemote]: builds a module of a remote git repository. *)
Definition BuildRemote (remote ref module arch platform : string)
  : Go Session Directory :=
  let git := Git_Branch_Tree ("https://" ++ remote) ref in
  WithProject (Some git) ;;
  let arch := if String.eqb arch "" then runtime_GOARCH host else arch in
  let platform :=
    if String.eqb platform "" then runtime_GOOS host else platform in
  let command := (["go"; "build"; "-o"; "build/"] ++ [module])%list in
  c <- prepare ;;
  call c (fun r => r |> WithEnvVariable "GOARCH" arch
                     |> WithEnvVariable "GOOS" platform
                     |> WithExec command false
                     |> Container_Directory (PROJ_MOUNT ++ "/" ++ "build" ++ "/")).

End Engine.

(** [Container]: the go build container. *)
Definition Container : Go Session (option Container) :=
  g <- get_this ;; ret (Ctr g).

End golang.

(* ------------------------------------------------------------------ *)
(** ** src/unnamed/part_000: two other revisions of the module

    Both revisions have [Service], [Attach], [prepare], [Build],
    [Vulncheck], [Project], [WithProject] and [WithContainer] word for
    word as in src/golang/main.go; they differ in [New] and [Base]. *)

(** First file of part_000 ([DEFAULT_GO = "golang:1.23.4"]). *)
Module part_000_first.

Definition DEFAULT_GO := "golang:1.23.4".

Definition New (ctr : option Container) (proj : option Directory)
  : Go Session unit :=
  set_this {| Ctr := None; Proj := None |} ;;
  (match ctr with
   | None =>
       set_Ctr (Some (dag_Container
                      |> From DEFAULT_GO
                      |> WithMountedCache "/go/pkg/mod"
                           (dag_CacheVolume "gomodcache") None
                      |> WithMountedCache "/root/.cache/go-build"
                           (dag_CacheVolume "gobuildcache") None))
   | Some _ => set_Ctr ctr
   end) ;;
  match proj with
  | None =>
      log (log_Println
             "⚠️ Warning: proj is nil. Defaulting to current directory.") ;;
      g <- get_this ;;
      d <- call (Ctr g) (Container_Directory ".") ;;
      set_Proj (Some d)
  | Some _ => set_Proj proj
  end.

Definition Base : Go Session unit :=
  g <- get_this ;;
  vendor <- call (Proj g) (Directory_Directory "vendor") ;;
  set_Ctr (Some (dag_Container
                 |> From DEFAULT_GO
                 |> WithMountedCache "/go/pkg/mod"
                      (dag_CacheVolume "gomodcache") None
                 |> WithMountedCache "/root/.cache/go-build"
                      (dag_CacheVolume "gobuildcache") None
                 |> WithMountedDirectory "/src/vendor" vendor
                 |> WithEnvVariable "GOFLAGS" "-mod=vendor")).

End part_000_first.

(** Second file of part_000 ([DEFAULT_GO = "1.24"]). *)
Module part_000_second.

Definition DEFAULT_GO := "1.24".

Definition Base (version : string) : Go Session unit :=
  let mod_ := dag_CacheVolume "gomodcache" in
  let build := dag_CacheVolume "gobuildcache" in
  let image := "golang:" ++ version in
  let c := dag_Container
           |> From image
           |> WithMountedCache "/go/pkg/mod" mod_ None
           |> WithMountedCache "/root/.cache/go-build" build None in
  set_Ctr (Some c).

Definition New (ctr : option Container) (proj : option Directory)
  : Go Session unit :=
  set_this {| Ctr := None; Proj := None |} ;;
  ctr <- (match ctr with
          | None => Base DEFAULT_GO ;; g <- get_this ;; ret (Ctr g)
          | Some _ => ret ctr
          end) ;;
  set_Ctr ctr ;;
  match proj with
  | Some _ => set_Proj proj
  | None => ret tt
  end.

(** The line feed of ["...%v\nstdout: %s"]. *)
Definition LF : string := String (Ascii.ascii_of_nat 10) EmptyString.

(** [Testdebug]: go test with a check of /src before and after.  The two
    checks run on [g.Ctr]; [prepare] and [WithProject] of this file are
    those of src/golang/main.go word for word. *)
Definition Testdebug (engine : Engine) (source : option Directory)
  (component timeout : string) : Go Session (string * error) :=
  (match source with
   | Some _ => golang.WithProject source
   | None => ret tt
   end) ;;
  g <- get_this ;;
  '(_, err) <- call (Ctr g)
                 (fun r => Container_Stdout engine
                             (r |> WithExec ["mkdir"; "-p"; "/src"] false)) ;;
  match err with
  | Some e => ret ("", Some ("Failed to create directory /src: " ++ e))
  | None =>
      let command := ["go"; "test"; component;
                      "-coverprofile=/src/overage.txt";
                      "-timeout"; timeout; "-v"] in
      c <- golang.prepare engine ;;
      '(output, err) <- call c (fun r => Container_Stdout engine
                                          (r |> WithExec command false)) ;;
      match err with
      | Some e =>
          ret ("", Some ("go test error: " ++ e ++ LF ++ "stdout: " ++ output))
      | None =>
          g <- get_this ;;
          '(_, err) <- call (Ctr g)
                         (fun r => Container_Stdout engine
                                     (r |> WithExec ["ls"; "-la"; "/src"]
                                             false)) ;;
          match err with
          | Some _ =>
              ret ("", Some "Coverage file not found or not created at: /src")
          | None => ret (output, None)
          end
      end
  end.

End part_000_second.

(* ------------------------------------------------------------------ *)
(** ** src/unnamed/part_001: the Utils module *)

Module utils.

(** [fmt.Sprintf("%v", i)] for an index [i]: its decimal numeral. *)
Definition Sprintf_v (i : nat) : string :=
  NilEmpty.string_of_uint (Nat.to_uint i).

(** The name under which a directory lists what was put at [path]. *)
Definition entry_name (path : string) : string :=
  match path with
  | String "/" rest => rest
  | _ => path
  end.

(** Putting a file under a name replaces the file of that name. *)
Definition set_file (name : string) (f : File)
  (files : list (string * File)) : list (string * File) :=
  (filter (fun e => negb (String.eqb (fst e) name)) files ++ [(name, f)])%list.

(** The directory a chain of [WithFile] calls starts from, and the files
    the chain puts into it. *)
Fixpoint base (d : Directory) : Directory :=
  match d with
  | WithFile _ _ r => base r
  | _ => d
  end.

Fixpoint Files (d : Directory) : list (string * File) :=
  match d with
  | WithFile path source r => set_file (entry_name path) source (Files r)
  | _ => []
  end.

Definition file_container (f : File) : Container :=
  match f with Container_File _ r => r end.

(** The first error among the containers of [files], if any. *)
Fixpoint first_error (engine : Engine) (files : list (string * File))
  : error :=
  match files with
  | [] => None
  | (_, f) :: rest =>
      match Container_Sync engine (file_container f) with
      | Some e => Some e
      | None => first_error engine rest
      end
  end.

(** Modelled from the spec: the engine's read-back [Directory.Entries],
    which is not part of the repository.  Reading a directory back makes
    the engine evaluate everything the directory is built from: the
    directory the chain starts from (the empty directory reads back as
    empty without error) and the container behind every file put into
    it.  The first failure is the error; otherwise the names are listed.
    The order of the listing is not modelled. *)
Definition Directory_Entries (engine : Engine) (d : Directory)
  : list string * error :=
  let '(names, err) := match base d with
                       | dag_Directory => ([], None)
                       | b => Directory_Read engine b
                       end in
  match err with
  | Some _ => ([], err)
  | None =>
      match first_error engine (Files d) with
      | Some e => ([], Some e)
      | None =>
          (fold_left (fun acc n => if existsb (String.eqb n) acc then acc
                                   else (acc ++ [n])%list)
             (map fst (Files d)) names, None)
      end
  end.

(** The body of [for i, ctr := range ctrs], from index [i] on. *)
Fixpoint Multisync_range (i : nat) (ctrs : list (option Container))
  (hck : Directory) : Go unit Directory :=
  match ctrs with
  | [] => ret hck
  | ctr :: rest =>
      let ctrFile := "/syncfile" ++ Sprintf_v i in
      ctr <- call ctr (WithNewFile "/syncfile") ;;
      let hck := hck |> WithFile ctrFile (ctr |> Container_File "/syncfile") in
      Multisync_range (S i) rest hck
  end.

(** [Multisync]: concurrently syncs multiple containers. *)
Definition Multisync (engine : Engine) (ctrs : list (option Container))
  : Go unit error :=
  let hck := dag_Directory in
  hck <- Multisync_range 0 ctrs hck ;;
  let '(_, err) := Directory_Entries engine hck in
  ret err.

(** [Tar]: a tarball of a directory. *)
Definition Tar (dir : option Directory) : Go unit File :=
  source <- assertNotNil "source" dir ;;
  ret (dag_Container
       |> From "alpine:3.18"
       |> WithMountedDirectory "/assets" source
       |> WithExec ["tar"; "czf"; "out.tar.gz"; "/assets"] false
       |> Container_File "out.tar.gz").

End utils.

(* ------------------------------------------------------------------ *)
(** ** Reading outcomes *)

(** The value a computation returned, if it returned. *)
Definition returned {S A} (o : Outcome S A) : option A :=
  match o with
  | Returns a _ => Some a
  | Panics _ _ => None
  end.

(** The state a computation ended in, by return or by panic. *)
Definition final {S A} (o : Outcome S A) : S :=
  match o with
  | Returns _ s => s
  | Panics _ s => s
  end.

(** The session after one more endpoint resolution. *)
Definition resolved_once (s : Session) : Session :=
  {| this := this s; logged := logged s; resolutions := S (resolutions s) |}.

(** The container [Attach] builds once the endpoint [dockerHost] is known. *)
Definition attached (dockerHost : string) (r : Container) : Container :=
  r |> WithServiceBinding "docker" (golang.Service "24.0")
    |> WithEnvVariable "DOCKER_HOST" dockerHost.

(** The container [prepare] hands to [Attach]. *)
Definition mounted (directory : Directory) (r : Container) : Container :=
  r |> WithDirectory golang.PROJ_MOUNT directory
    |> WithWorkdir golang.PROJ_MOUNT.

(** The claim on [Attach] as worded: on failure the input container comes
    back with the error; on success the bound container comes back. *)
Definition Attach_returns_input_on_failure (engine : Engine) (c : Container)
  (s : Session) : Prop :=
  (exists e s', golang.Attach engine (Some c) s = Returns (Some c, Some e) s')
  \/ (exists c' s', golang.Attach engine (Some c) s = Returns (Some c', None) s').

(** An engine on which no endpoint ever resolves. *)
Definition unreachable : Engine :=
  {| Service_Endpoint := fun _ _ _ => ("", Some "service endpoint: dial failed");
     Container_Stdout := fun _ => ("", None);
     Container_Sync := fun _ => None;
     Directory_Read := fun _ => ([], None) |}.

(** An engine on which every endpoint resolves and nothing fails. *)
Definition reachable : Engine :=
  {| Service_Endpoint := fun _ _ _ => ("tcp://dockerd:2375", None);
     Container_Stdout := fun _ => ("ok", None);
     Container_Sync := fun _ => None;
     Directory_Read := fun _ => ([], None) |}.

Definition amd64_linux : Runtime :=
  {| runtime_GOARCH := "amd64"; runtime_GOOS := "linux" |}.

(** A session whose Build State holds a golang container and a loaded
    project tree. *)
Definition golang_1_23 : Container := dag_Container |> From "golang:1.23.4".

Definition session0 : Session :=
  {| this := {| Ctr := Some golang_1_23;
                Proj := Some (LoadedDirectory "project") |};
     logged := [];
     resolutions := 0 |}.

(** A fresh session: zero Build State, nothing logged. *)
Definition fresh : Session :=
  {| this := {| Ctr := None; Proj := None |}; logged := []; resolutions := 0 |}.

(* ------------------------------------------------------------------ *)
(** ** Attach and prepare *)

Lemma Attach_resolved (engine : Engine) (s : Session) (c : Container)
  (dockerHost : string) :
  Service_Endpoint engine (resolutions s) (golang.Service "24.0") "tcp"
    = (dockerHost, None) ->
  golang.Attach engine (Some c) s
    = Returns (Some (attached dockerHost c), None) (resolved_once s).
Proof.
  intros H. unfold golang.Attach, bind, Endpoint. rewrite H. reflexivity.
Qed.

Lemma Attach_unresolved (engine : Engine) (s : Session)
  (container : option Container) (dockerHost e : string) :
  Service_Endpoint engine (resolutions s) (golang.Service "24.0") "tcp"
    = (dockerHost, Some e) ->
  golang.Attach engine container s = Returns (None, Some e) (resolved_once s).
Proof.
  intros H. unfold golang.Attach, bind, Endpoint. rewrite H. reflexivity.
Qed.

Lemma attached_observations (dockerHost : string) (r : Container) :
  Dagger.ServiceBinding "docker" (attached dockerHost r)
    = Some (golang.Service "24.0")
  /\ Dagger.EnvVariable "DOCKER_HOST" (attached dockerHost r) = Some dockerHost
  /\ Dagger.Workdir (attached dockerHost r) = Dagger.Workdir r
  /\ Dagger.Mounts (attached dockerHost r) = Dagger.Mounts r
  /\ Dagger.Execs (attached dockerHost r) = Dagger.Execs r
  /\ (forall path, Dagger.TreeAt path (attached dockerHost r)
                   = Dagger.TreeAt path r).
Proof. repeat split. Qed.

Lemma prepare_resolved (engine : Engine) (s : Session) (c : Container)
  (d : Directory) (dockerHost : string) :
  Ctr (this s) = Some c ->
  Proj (this s) = Some d ->
  Service_Endpoint engine (resolutions s) (golang.Service "24.0") "tcp"
    = (dockerHost, None) ->
  golang.prepare engine s
    = Returns (Some (attached dockerHost (mounted d c))) (resolved_once s).
Proof.
  intros HC HP HE. unfold golang.prepare.
  unfold bind at 1. unfold get_this. rewrite HP, HC. cbn [assertNotNil call].
  unfold bind at 1. unfold ret at 1.
  unfold bind at 1. unfold ret at 1.
  unfold bind at 1.
  rewrite (Attach_resolved engine s _ dockerHost HE). reflexivity.
Qed.

Lemma prepared_observations (dockerHost : string) (d : Directory)
  (c : Container) :
  Dagger.TreeAt "/src" (attached dockerHost (mounted d c)) = Some d
  /\ Dagger.Workdir (attached dockerHost (mounted d c)) = Some "/src"
  /\ Dagger.ServiceBinding "docker" (attached dockerHost (mounted d c))
     = Some (golang.Service "24.0")
  /\ Dagger.EnvVariable "DOCKER_HOST" (attached dockerHost (mounted d c))
     = Some dockerHost.
Proof. repeat split. Qed.

Lemma prepare_unresolved (engine : Engine) (s : Session)
  (c : Container) (d : Directory) (dockerHost e : string) :
  Ctr (this s) = Some c ->
  Proj (this s) = Some d ->
  Service_Endpoint engine (resolutions s) (golang.Service "24.0") "tcp"
    = (dockerHost, Some e) ->
  golang.prepare engine s
    = Returns None
        {| this := this s;
           logged := (logged s ++ [log_Printf e])%list;
           resolutions := S (resolutions s) |}.
Proof.
  intros HC HP HE. unfold golang.prepare.
  unfold bind at 1. unfold get_this. rewrite HP, HC. cbn [assertNotNil call].
  unfold bind at 1. unfold ret at 1.
  unfold bind at 1. unfold ret at 1.
  unfold bind at 1.
  rewrite (Attach_unresolved engine s _ dockerHost e HE). reflexivity.
Qed.

(** C1 (as the code behaves).  When the Build State holds container [c]
    and project tree [d] and endpoint resolution fails with [e], [prepare]
    logs [e] and then returns nil: the container with [d] at /src and
    working directory /src, which it had built and handed to [Attach], is
    overwritten by the nil that [Attach] returns with its error. *)
Theorem prepare_unresolved_returns_nil (engine : Engine) (s : Session)
  (c : Container) (d : Directory) (dockerHost e : string) :
  Ctr (this s) = Some c ->
  Proj (this s) = Some d ->
  Service_Endpoint engine (resolutions s) (golang.Service "24.0") "tcp"
    = (dockerHost, Some e) ->
  returned (golang.prepare engine s) = Some None
  /\ logged (final (golang.prepare engine s))
     = (logged s ++ [log_Printf e])%list
  /\ this (final (golang.prepare engine s)) = this s.
Proof.
  intros HC HP HE.
  rewrite (prepare_unresolved engine s c d dockerHost e HC HP HE).
  repeat split.
Qed.

Lemma prepare_unresolved_returns_nil_witness :
  returned (golang.prepare unreachable session0) = Some None
  /\ logged (final (golang.prepare unreachable session0))
     = [log_Printf "service endpoint: dial failed"]
  /\ this (final (golang.prepare unreachable session0)) = this session0.
Proof.
  exact (prepare_unresolved_returns_nil unreachable session0 golang_1_23
           (LoadedDirectory "project") "" "service endpoint: dial failed"
           eq_refl eq_refl eq_refl).
Defined.

(** C2 (amended).  [Attach] on a container [c] makes one endpoint
    resolution and leaves the Build State and the log as they were.  If
    the resolution fails with [e], it returns the error [e] and no
    container (nil, not [c]).  If it succeeds with address [dockerHost],
    it returns no error and a new container that is [c] extended by the
    service binding "docker" to the dockerd service and by DOCKER_HOST set
    to [dockerHost]; what [c] itself denotes (working directory, mounts,
    commands, trees) is carried over unchanged. *)
Theorem Attach_outcomes (engine : Engine) (s : Session) (c : Container) :
  let answer :=
    Service_Endpoint engine (resolutions s) (golang.Service "24.0") "tcp" in
  match snd answer with
  | Some e =>
      golang.Attach engine (Some c) s
        = Returns (None, Some e) (resolved_once s)
  | None =>
      let c' := attached (fst answer) c in
      golang.Attach engine (Some c) s
        = Returns (Some c', None) (resolved_once s)
      /\ Dagger.ServiceBinding "docker" c' = Some (golang.Service "24.0")
      /\ Dagger.EnvVariable "DOCKER_HOST" c' = Some (fst answer)
      /\ Dagger.Workdir c' = Dagger.Workdir c
      /\ Dagger.Mounts c' = Dagger.Mounts c
      /\ Dagger.Execs c' = Dagger.Execs c
      /\ (forall path, Dagger.TreeAt path c' = Dagger.TreeAt path c)
  end
  /\ this (final (golang.Attach engine (Some c) s)) = this s
  /\ logged (final (golang.Attach engine (Some c) s)) = logged s.
Proof.
  cbv zeta.
  destruct (Service_Endpoint engine (resolutions s) (golang.Service "24.0")
              "tcp") as [dockerHost [e|]] eqn:HE; cbn [fst snd].
  - rewrite (Attach_unresolved engine s (Some c) dockerHost e HE).
    repeat split.
  - rewrite (Attach_resolved engine s c dockerHost HE).
    repeat split.
Qed.

(** C2 (as worded) fails: on an engine whose endpoint does not resolve,
    [Attach] returns neither the input container with an error nor a
    bound container. *)
Lemma Attach_failure_drops_input :
  ~ Attach_returns_input_on_failure unreachable golang_1_23 session0.
Proof.
  unfold Attach_returns_input_on_failure.
  intros [(e & s' & H) | (c' & s' & H)]; vm_compute in H; discriminate H.
Qed.

(* ------------------------------------------------------------------ *)
(** ** Service *)

(** C5.  For every version [v], [Service v] is the one descriptor fixed
    by [v] alone (it reads neither the Build State nor the engine): image
    docker:<v>-dind; a single mount, the cache volume keyed <v>-docker-lib
    at /var/lib/docker with private sharing; exactly the exposed port 2375;
    and a single command, dockerd listening on a TCP and on a Unix socket
    with TLS off, run with insecure root capabilities. *)
Theorem Service_descriptor (v : string) :
  exists r : Container,
    golang.Service v = AsService r
    /\ Dagger.Image r = Some ("docker:" ++ v ++ "-dind")
    /\ Dagger.Mounts r
       = [("/var/lib/docker",
           Dagger.MountedCache (dag_CacheVolume (v ++ "-docker-lib")) Private)]
    /\ map Dagger.key (Dagger.CacheVolumes r) = [v ++ "-docker-lib"]
    /\ Dagger.ExposedPorts r = [2375]
    /\ map Dagger.exec_args (Dagger.Execs r)
       = [["dockerd"; "--host=tcp://0.0.0.0:2375";
           "--host=unix:///var/run/docker.sock"; "--tls=false"]]
    /\ map Dagger.exec_insecure (Dagger.Execs r) = [true].
Proof.
  eexists. split; [reflexivity |]. repeat split.
Qed.

(* ------------------------------------------------------------------ *)
(** ** Project and WithProject *)

(** C10.  Whatever directory [d] was just bound by [WithProject],
    [Project] returns the directory /src of the current container handle
    (and panics when that handle is nil): its result is a function of the
    container handle alone.  In particular it is not the bound tree when
    that tree is a loaded directory, and the bound tree stays bound. *)
Theorem Project_reads_container_only (s : Session) (d : option Directory) :
  returned ((golang.WithProject d ;; golang.Project) s)
    = option_map (Container_Directory "/src") (Ctr (this s))
  /\ (forall id,
        returned ((golang.WithProject (Some (LoadedDirectory id)) ;;
                   golang.Project) s)
        <> Some (LoadedDirectory id))
  /\ Proj (this (final ((golang.WithProject d ;; golang.Project) s))) = d
  /\ Ctr (this (final ((golang.WithProject d ;; golang.Project) s)))
     = Ctr (this s).
Proof.
  destruct s as [[ctr proj] l n]; destruct ctr as [c|]; cbn.
  - repeat split. intros id H. discriminate H.
  - repeat split. intros id H. discriminate H.
Qed.

(* ------------------------------------------------------------------ *)
(** ** Base and New *)

(** The two cache volumes of the golang container. *)
Definition go_caches : list CacheVolume :=
  [dag_CacheVolume "gomodcache"; dag_CacheVolume "gobuildcache"].

(** The container [Base] of src/golang/main.go stores for project tree [d]. *)
Definition based (version : string) (d : Directory) : Container :=
  dag_Container
  |> From ("golang:" ++ version)
  |> WithMountedCache "/go/pkg/mod" (dag_CacheVolume "gomodcache") None
  |> WithMountedCache "/root/.cache/go-build"
       (dag_CacheVolume "gobuildcache") None
  |> WithMountedDirectory "/src/vendor" (d |> Directory_Directory "vendor")
  |> WithEnvVariable "GOFLAGS" "-mod=vendor"
  |> WithMountedDirectory "/src/vendor" (d |> Directory_Directory "vendor")
  |> WithEnvVariable "GOFLAGS" "-mod=vendor".

Lemma Base_bound (version : string) (s : Session) (d : Directory) :
  Proj (this s) = Some d ->
  golang.Base version s
    = Returns tt {| this := {| Ctr := Some (based version d);
                               Proj := Some d |};
                    logged := logged s;
                    resolutions := resolutions s |}.
Proof.
  destruct s as [[ctr proj] l n]; cbn. intros ->. reflexivity.
Qed.

Lemma based_observations (version : string) (d : Directory) :
  Dagger.CacheVolumes (based version d) = go_caches
  /\ Dagger.Mounts (based version d)
     = [("/go/pkg/mod",
         Dagger.MountedCache (dag_CacheVolume "gomodcache") Shared);
        ("/root/.cache/go-build",
         Dagger.MountedCache (dag_CacheVolume "gobuildcache") Shared);
        ("/src/vendor",
         Dagger.MountedDirectory (Directory_Directory "vendor" d))]
  /\ Dagger.EnvVariable "GOFLAGS" (based version d) = Some "-mod=vendor"
  /\ Dagger.Image (based version d) = Some ("golang:" ++ version).
Proof. repeat split. Qed.

Lemma second_Base_always (version : string) (s : Session) :
  exists c,
    part_000_second.Base version s
      = Returns tt {| this := {| Ctr := Some c; Proj := Proj (this s) |};
                      logged := logged s;
                      resolutions := resolutions s |}
    /\ Dagger.CacheVolumes c = go_caches
    /\ Dagger.Image c = Some ("golang:" ++ version).
Proof. eexists. repeat split. Qed.

(** C4 (as the code behaves).  With no project tree bound, [Base] of
    src/golang/main.go panics on the nil [g.Proj] in its first chain: it
    neither logs the warning nor substitutes a default nor stores a
    container. *)
Theorem Base_unbound_panics (version : string) (ctr : option Container)
  (l : list LogLine) (n : nat) :
  golang.Base version
    {| this := {| Ctr := ctr; Proj := None |}; logged := l; resolutions := n |}
  = Panics "invalid memory address or nil pointer dereference"
      {| this := {| Ctr := ctr; Proj := None |}; logged := l;
         resolutions := n |}.
Proof. reflexivity. Qed.

(** C3 (as the code behaves).  [New] of src/golang/main.go called without
    a container panics, whatever project tree is passed: it calls [Base]
    on the zero Build State, whose project tree is nil.  Called with a
    container [c], it returns the Build State holding [c] and the passed
    tree, or the directory /src of [c] when none is passed.  [New] of the
    second file of part_000, whose [Base] mounts no vendor tree, and [New]
    of the first file, which builds the container itself, default the
    container; the former leaves an absent tree absent, the latter binds
    the directory "." of the container. *)
Theorem New_without_container_panics (proj : option Directory)
  (s : Session) :
  golang.New None proj s
  = Panics "invalid memory address or nil pointer dereference"
      {| this := {| Ctr := None; Proj := None |}; logged := logged s;
         resolutions := resolutions s |}
  /\ (forall c,
        this (final (golang.New (Some c) proj s))
        = {| Ctr := Some c;
             Proj := Some match proj with
                          | Some d => d
                          | None => Container_Directory "/src" c
                          end |}
        /\ returned (golang.New (Some c) proj s) = Some tt)
  /\ (exists c,
        Ctr (this (final (part_000_second.New None proj s))) = Some c
        /\ Proj (this (final (part_000_second.New None proj s))) = proj
        /\ returned (part_000_second.New None proj s) = Some tt)
  /\ (exists c,
        this (final (part_000_first.New None proj s))
        = {| Ctr := Some c;
             Proj := Some match proj with
                          | Some d => d
                          | None => Container_Directory "." c
                          end |}
        /\ returned (part_000_first.New None proj s) = Some tt).
Proof.
  split; [reflexivity |]. split; [| split].
  - intros c. destruct proj; split; reflexivity.
  - eexists. destruct proj; repeat split.
  - eexists. destruct proj; split; reflexivity.
Qed.

(** C6.  Whatever the versions [v1] and [v2], and whatever project trees
    are bound, the containers stored by [Base] reference exactly the two
    cache volumes keyed "gomodcache" (at /go/pkg/mod) and "gobuildcache"
    (at /root/.cache/go-build), both shared; so two calls, with equal or
    different versions, reference the same cache volumes.  The same holds
    for [Base] of the second file of part_000. *)
Theorem Base_cache_volumes (v1 v2 : string) (s1 s2 : Session)
  (d1 d2 : Directory) :
  Proj (this s1) = Some d1 ->
  Proj (this s2) = Some d2 ->
  (exists c1 c2,
     returned (golang.Base v1 s1) = Some tt
     /\ returned (golang.Base v2 s2) = Some tt
     /\ Ctr (this (final (golang.Base v1 s1))) = Some c1
     /\ Ctr (this (final (golang.Base v2 s2))) = Some c2
     /\ map Dagger.key (Dagger.CacheVolumes c1)
        = ["gomodcache"; "gobuildcache"]
     /\ Dagger.CacheVolumes c2 = Dagger.CacheVolumes c1
     /\ filter (fun e => match snd e with
                         | Dagger.MountedCache _ _ => true
                         | Dagger.MountedDirectory _ => false
                         end) (Dagger.Mounts c1)
        = [("/go/pkg/mod",
            Dagger.MountedCache (dag_CacheVolume "gomodcache") Shared);
           ("/root/.cache/go-build",
            Dagger.MountedCache (dag_CacheVolume "gobuildcache") Shared)])
  /\ (exists c1 c2,
        Ctr (this (final (part_000_second.Base v1 s1))) = Some c1
        /\ Ctr (this (final (part_000_second.Base v2 s2))) = Some c2
        /\ map Dagger.key (Dagger.CacheVolumes c1)
           = ["gomodcache"; "gobuildcache"]
        /\ Dagger.CacheVolumes c2 = Dagger.CacheVolumes c1).
Proof.
  intros H1 H2. split.
  - exists (based v1 d1), (based v2 d2).
    rewrite (Base_bound v1 s1 d1 H1), (Base_bound v2 s2 d2 H2).
    repeat split.
  - destruct (second_Base_always v1 s1) as (c1 & E1 & K1 & _).
    destruct (second_Base_always v2 s2) as (c2 & E2 & K2 & _).
    exists c1, c2. rewrite E1, E2, K1, K2. repeat split.
Qed.

Lemma Base_cache_volumes_witness :
  exists c1 c2,
    Ctr (this (final (golang.Base "1.23.4" session0))) = Some c1
    /\ Ctr (this (final (golang.Base "1.24" session0))) = Some c2
    /\ map Dagger.key (Dagger.CacheVolumes c1) = ["gomodcache"; "gobuildcache"]
    /\ Dagger.CacheVolumes c2 = Dagger.CacheVolumes c1.
Proof.
  destruct (Base_cache_volumes "1.23.4" "1.24" session0 session0
              (LoadedDirectory "project") (LoadedDirectory "project")
              eq_refl eq_refl)
    as [(c1 & c2 & _ & _ & E1 & E2 & K1 & K2 & _) _].
  exists c1, c2. repeat split; assumption.
Defined.

(* ------------------------------------------------------------------ *)
(** ** Build and Vulncheck *)

(** The session after [if source != nil { g = g.WithProject(source) }]. *)
Definition rebound (source : option Directory) (s : Session) : Session :=
  match source with
  | Some _ => {| this := {| Ctr := Ctr (this s); Proj := source |};
                 logged := logged s;
                 resolutions := resolutions s |}
  | None => s
  end.

(** The project tree an operation works on when called with [source]. *)
Definition project_for (source : option Directory) (s : Session)
  : option Directory :=
  match source with
  | Some _ => source
  | None => Proj (this s)
  end.

Definition install_govulncheck : list string :=
  ["go"; "install"; "golang.org/x/vuln/cmd/govulncheck@latest"].

Lemma bind_returns {S A B} (m : Go S A) (k : A -> Go S B) (s s' : S)
  (a : A) :
  m s = Returns a s' -> bind m k s = k a s'.
Proof. intros H. unfold bind. rewrite H. reflexivity. Qed.

Lemma rebind_returns (source : option Directory) (s : Session) :
  match source with
  | Some _ => golang.WithProject source
  | None => ret tt
  end s = Returns tt (rebound source s).
Proof. destruct source; reflexivity. Qed.

Lemma rebound_facts (source : option Directory) (s : Session) :
  Ctr (this (rebound source s)) = Ctr (this s)
  /\ Proj (this (rebound source s)) = project_for source s
  /\ logged (rebound source s) = logged s
  /\ resolutions (rebound source s) = resolutions s.
Proof. destruct source; repeat split. Qed.

Lemma prepare_rebound_resolved (engine : Engine) (s : Session)
  (source : option Directory) (c : Container) (d : Directory)
  (dockerHost : string) :
  Ctr (this s) = Some c ->
  project_for source s = Some d ->
  Service_Endpoint engine (resolutions s) (golang.Service "24.0") "tcp"
    = (dockerHost, None) ->
  golang.prepare engine (rebound source s)
    = Returns (Some (attached dockerHost (mounted d c)))
        (resolved_once (rebound source s)).
Proof.
  intros HC HP HE.
  destruct (rebound_facts source s) as (FC & FP & _ & FR).
  apply prepare_resolved.
  - rewrite FC. exact HC.
  - rewrite FP. exact HP.
  - rewrite FR. exact HE.
Qed.

(** C7.  When the Build State holds a container [c], the project tree in
    force is [d] and the endpoint resolves, [Build] returns the directory
    /out/ of the container that runs exactly
    ["go"; "build"; "-o"; "/out/"] followed by [args], in order.  That
    command runs on the prepared container ([d] at /src, working directory
    /src, dockerd attached) on which GOARCH and GOOS have been set; each
    is the argument passed, or the host's value when the argument is the
    empty string. *)
Theorem Build_command (engine : Engine) (host : Runtime) (s : Session)
  (source : option Directory) (args : list string) (arch os : string)
  (c : Container) (d : Directory) (dockerHost : string) :
  Ctr (this s) = Some c ->
  project_for source s = Some d ->
  Service_Endpoint engine (resolutions s) (golang.Service "24.0") "tcp"
    = (dockerHost, None) ->
  exists run_on : Container,
    returned (golang.Build engine host source args arch os s)
      = Some (Container_Directory "/out/"
                (WithExec (["go"; "build"; "-o"; "/out/"] ++ args)%list
                   false run_on))
    /\ Dagger.Execs
         (WithExec (["go"; "build"; "-o"; "/out/"] ++ args)%list false run_on)
       = (Dagger.Execs c
          ++ [{| Dagger.exec_args :=
                   (["go"; "build"; "-o"; "/out/"] ++ args)%list;
                 Dagger.exec_insecure := false;
                 Dagger.exec_on := run_on |}])%list
    /\ Dagger.EnvVariable "GOARCH" run_on
       = Some (if String.eqb arch "" then runtime_GOARCH host else arch)
    /\ Dagger.EnvVariable "GOOS" run_on
       = Some (if String.eqb os "" then runtime_GOOS host else os)
    /\ (arch = "" ->
        Dagger.EnvVariable "GOARCH" run_on = Some (runtime_GOARCH host))
    /\ (os = "" ->
        Dagger.EnvVariable "GOOS" run_on = Some (runtime_GOOS host))
    /\ Dagger.TreeAt "/src" run_on = Some d
    /\ Dagger.Workdir run_on = Some "/src"
    /\ Dagger.ServiceBinding "docker" run_on = Some (golang.Service "24.0").
Proof.
  intros HC HP HE.
  exists (attached dockerHost (mounted d c)
          |> WithEnvVariable "GOARCH"
               (if String.eqb arch "" then runtime_GOARCH host else arch)
          |> WithEnvVariable "GOOS"
               (if String.eqb os "" then runtime_GOOS host else os)).
  split.
  - unfold golang.Build.
    rewrite (bind_returns _ _ s (rebound source s) tt
               (rebind_returns source s)).
    rewrite (bind_returns _ _ _ _ _
               (prepare_rebound_resolved engine s source c d dockerHost
                  HC HP HE)).
    reflexivity.
  - repeat split.
    + intros ->. reflexivity.
    + intros ->. reflexivity.
Qed.

Lemma Build_command_witness :
  exists run_on : Container,
    returned (golang.Build reachable amd64_linux None
                ["-v"; "./cmd/app"] "arm64" "" session0)
      = Some (Container_Directory "/out/"
                (WithExec ["go"; "build"; "-o"; "/out/"; "-v"; "./cmd/app"]
                   false run_on))
    /\ Dagger.EnvVariable "GOARCH" run_on = Some "arm64"
    /\ Dagger.EnvVariable "GOOS" run_on = Some "linux".
Proof.
  destruct (Build_command reachable amd64_linux session0 None
              ["-v"; "./cmd/app"] "arm64" "" golang_1_23
              (LoadedDirectory "project") "tcp://dockerd:2375"
              eq_refl eq_refl eq_refl)
    as (run_on & R & _ & A & O & _).
  exists run_on. repeat split; assumption.
Defined.

(** The session in which [Vulncheck] makes its second [prepare]: the
    container with govulncheck installed is the current one. *)
Definition installed_session (source : option Directory) (s : Session)
  (installed : Container) : Session :=
  {| this := {| Ctr := Some installed; Proj := project_for source s |};
     logged := logged s;
     resolutions := S (resolutions s) |}.

Lemma store_installed (source : option Directory) (s : Session)
  (installed : Container) :
  set_Ctr (Some installed) (resolved_once (rebound source s))
  = Returns tt (installed_session source s installed).
Proof. destruct source; reflexivity. Qed.

Lemma Vulncheck_first_half (engine : Engine) (s : Session)
  (source : option Directory) (component : string) (c : Container)
  (d : Directory) (dockerHost : string) :
  Ctr (this s) = Some c ->
  project_for source s = Some d ->
  Service_Endpoint engine (resolutions s) (golang.Service "24.0") "tcp"
    = (dockerHost, None) ->
  golang.Vulncheck engine source component s
  = (c' <- golang.prepare engine ;;
     call c' (fun r => Container_Stdout engine
                         (r |> WithExec ["govulncheck"; "-C"; component]
                                 false)))
      (installed_session source s
         (WithExec install_govulncheck false
            (attached dockerHost (mounted d c)))).
Proof.
  intros HC HP HE. unfold golang.Vulncheck.
  rewrite (bind_returns _ _ s (rebound source s) tt
             (rebind_returns source s)).
  rewrite (bind_returns _ _ _ _ _
             (prepare_rebound_resolved engine s source c d dockerHost
                HC HP HE)).
  cbn [call].
  rewrite (bind_returns _ _ _ _ _ (eq_refl : ret _ _ = Returns _ _)).
  rewrite (bind_returns _ _ _ _ _ (store_installed source s _)).
  reflexivity.
Qed.

Lemma depth_attached_mounted (dockerHost : string) (d : Directory)
  (c : Container) :
  Dagger.depth (attached dockerHost (mounted d c)) = 4 + Dagger.depth c.
Proof. reflexivity. Qed.

(** C8.  When the Build State holds a container [c], the project tree in
    force is [d] and the first endpoint resolution succeeds, [Vulncheck]
    ends, by return or by panic, in a Build State whose container handle
    is the prepared container with the command go install
    golang.org/x/vuln/cmd/govulncheck@latest appended: a handle different
    from the one before the call.  When the second resolution succeeds
    too, the text returned is the standard output of a container prepared
    from that handle, on which the install command runs before
    govulncheck -C [component]. *)
Theorem Vulncheck_replaces_container (engine : Engine) (s : Session)
  (source : option Directory) (component : string) (c : Container)
  (d : Directory) (dockerHost : string) :
  Ctr (this s) = Some c ->
  project_for source s = Some d ->
  Service_Endpoint engine (resolutions s) (golang.Service "24.0") "tcp"
    = (dockerHost, None) ->
  let prepared := attached dockerHost (mounted d c) in
  let installed := WithExec install_govulncheck false prepared in
  Ctr (this (final (golang.Vulncheck engine source component s)))
    = Some installed
  /\ Ctr (this (final (golang.Vulncheck engine source component s)))
     <> Ctr (this s)
  /\ Dagger.Execs installed
     = (Dagger.Execs c
        ++ [{| Dagger.exec_args := install_govulncheck;
               Dagger.exec_insecure := false;
               Dagger.exec_on := prepared |}])%list
  /\ (forall dockerHost2,
        Service_Endpoint engine (S (resolutions s)) (golang.Service "24.0")
          "tcp" = (dockerHost2, None) ->
        exists scanned : Container,
          returned (golang.Vulncheck engine source component s)
            = Some (Container_Stdout engine scanned)
          /\ map Dagger.exec_args (Dagger.Execs scanned)
             = (map Dagger.exec_args (Dagger.Execs c)
                ++ [install_govulncheck; ["govulncheck"; "-C"; component]])%list
          /\ Dagger.TreeAt "/src" scanned = Some d).
Proof.
  intros HC HP HE prepared installed.
  rewrite (Vulncheck_first_half engine s source component c d dockerHost
             HC HP HE).
  fold prepared. fold installed.
  set (s2 := installed_session source s installed).
  assert (HC2 : Ctr (this s2) = Some installed) by reflexivity.
  assert (HP2 : Proj (this s2) = Some d) by exact HP.
  assert (Hne : Some installed <> Ctr (this s)).
  { rewrite HC. intros H. injection H as H.
    apply (f_equal Dagger.depth) in H.
    unfold installed, prepared in H. cbn [Dagger.depth] in H.
    rewrite depth_attached_mounted in H. lia. }
  destruct (Service_Endpoint engine (resolutions s2) (golang.Service "24.0")
              "tcp") as [dockerHost2 [e|]] eqn:HE2.
  - rewrite (bind_returns _ _ _ _ _
               (prepare_unresolved engine s2 installed d dockerHost2 e
                  HC2 HP2 HE2)).
    cbn [call panic final this Ctr].
    repeat split; try assumption.
    intros a2 H2. change (S (resolutions s)) with (resolutions s2) in H2.
    rewrite HE2 in H2. discriminate H2.
  - rewrite (bind_returns _ _ _ _ _
               (prepare_resolved engine s2 installed d dockerHost2
                  HC2 HP2 HE2)).
    cbn [call ret final returned this Ctr resolved_once].
    repeat split; try assumption.
    intros a2 H2. change (S (resolutions s)) with (resolutions s2) in H2.
    rewrite HE2 in H2. injection H2 as <-.
    eexists. split; [reflexivity |]. split.
    + cbn [Dagger.Execs attached mounted installed prepared].
      rewrite !map_app. cbn [map Dagger.exec_args].
      rewrite <- app_assoc. reflexivity.
    + reflexivity.
Qed.

Lemma Vulncheck_replaces_container_witness :
  Ctr (this (final (golang.Vulncheck reachable None "./..." session0)))
  = Some (WithExec install_govulncheck false
            (attached "tcp://dockerd:2375"
               (mounted (LoadedDirectory "project") golang_1_23)))
  /\ Ctr (this (final (golang.Vulncheck reachable None "./..." session0)))
     <> Ctr (this session0).
Proof.
  destruct (Vulncheck_replaces_container reachable session0 None "./..."
              golang_1_23 (LoadedDirectory "project") "tcp://dockerd:2375"
              eq_refl eq_refl eq_refl)
    as (E & N & _).
  split; assumption.
Defined.

(* ------------------------------------------------------------------ *)
(** ** Multisync *)

(** The entry under which the aggregate lists the marker of index [i]. *)
Definition marker_name (i : nat) : string := "syncfile" ++ utils.Sprintf_v i.

(** The marker file written into container [c]. *)
Definition marker_file (c : Container) : File :=
  c |> WithNewFile "/syncfile" |> Container_File "/syncfile".

(** The markers of the containers [cs], the first one having index [i]. *)
Fixpoint markers (i : nat) (cs : list Container) : list (string * File) :=
  match cs with
  | [] => []
  | c :: rest => (marker_name i, marker_file c) :: markers (S i) rest
  end.

(** The aggregate after the loop has run over [cs] from index [i]. *)
Fixpoint marked (i : nat) (cs : list Container) (hck : Directory)
  : Directory :=
  match cs with
  | [] => hck
  | c :: rest =>
      marked (S i) rest
        (hck |> WithFile ("/syncfile" ++ utils.Sprintf_v i) (marker_file c))
  end.

Lemma Sprintf_v_inj (i j : nat) :
  utils.Sprintf_v i = utils.Sprintf_v j -> i = j.
Proof.
  unfold utils.Sprintf_v. intros H.
  apply (f_equal NilEmpty.uint_of_string) in H.
  rewrite !NilEmpty.usu in H. injection H as H.
  exact (Unsigned.to_uint_inj i j H).
Qed.

Lemma marker_name_inj (i j : nat) : marker_name i = marker_name j -> i = j.
Proof.
  unfold marker_name. cbn [append]. intros H.
  injection H as H. exact (Sprintf_v_inj i j H).
Qed.

Lemma markers_names_from (cs : list Container) (i : nat) (x : string) :
  In x (map fst (markers i cs)) -> exists j, i <= j /\ x = marker_name j.
Proof.
  revert i. induction cs as [|c rest IH]; intros i H; cbn in H.
  - contradiction.
  - destruct H as [<- | H].
    + exists i. split; [lia | reflexivity].
    + destruct (IH (S i) H) as (j & Hj & ->). exists j. split; [lia | reflexivity].
Qed.

Lemma markers_NoDup (cs : list Container) (i : nat) :
  NoDup (map fst (markers i cs)).
Proof.
  revert i. induction cs as [|c rest IH]; intros i; cbn.
  - constructor.
  - constructor; [| apply IH].
    intros H. destruct (markers_names_from rest (S i) _ H) as (j & Hj & E).
    apply marker_name_inj in E. lia.
Qed.

Lemma markers_length (cs : list Container) (i : nat) :
  length (markers i cs) = length cs.
Proof.
  revert i. induction cs as [|c rest IH]; intros i; cbn;
    [reflexivity | rewrite IH; reflexivity].
Qed.

Lemma markers_nth (cs : list Container) (i k : nat) (c : Container) :
  nth_error cs k = Some c ->
  nth_error (markers i cs) k = Some (marker_name (i + k), marker_file c).
Proof.
  revert i k. induction cs as [|c0 rest IH]; intros i k H.
  - destruct k; discriminate H.
  - destruct k as [|k]; cbn in H |- *.
    + injection H as ->. rewrite Nat.add_0_r. reflexivity.
    + rewrite (IH (S i) k H). rewrite Nat.add_succ_r. reflexivity.
Qed.

Lemma set_file_fresh (name : string) (f : File)
  (files : list (string * File)) :
  ~ In name (map fst files) ->
  utils.set_file name f files = (files ++ [(name, f)])%list.
Proof.
  intros H. unfold utils.set_file. f_equal.
  apply forallb_filter_id. apply forallb_forall. intros e He.
  apply negb_true_iff. apply String.eqb_neq. intros E. apply H.
  rewrite <- E. exact (in_map fst files e He).
Qed.

Lemma Multisync_range_marks (cs : list Container) (i : nat)
  (hck : Directory) :
  utils.Multisync_range i (map Some cs) hck tt = Returns (marked i cs hck) tt.
Proof.
  revert i hck. induction cs as [|c rest IH]; intros i hck.
  - reflexivity.
  - cbn [map utils.Multisync_range marked call].
    rewrite (bind_returns _ _ tt tt _ (eq_refl : ret _ _ = Returns _ _)).
    apply IH.
Qed.

Lemma base_marked (cs : list Container) (i : nat) (hck : Directory) :
  utils.base (marked i cs hck) = utils.base hck.
Proof.
  revert i hck. induction cs as [|c rest IH]; intros i hck; cbn [marked].
  - reflexivity.
  - rewrite IH. reflexivity.
Qed.

Lemma Files_marked (cs : list Container) (i : nat) (hck : Directory) :
  (forall j, i <= j -> ~ In (marker_name j) (map fst (utils.Files hck))) ->
  utils.Files (marked i cs hck) = (utils.Files hck ++ markers i cs)%list.
Proof.
  revert i hck. induction cs as [|c rest IH]; intros i hck Hfresh.
  - cbn. rewrite app_nil_r. reflexivity.
  - cbn [marked markers].
    assert (E : utils.Files
                  (hck |> WithFile ("/syncfile" ++ utils.Sprintf_v i)
                            (marker_file c))
                = (utils.Files hck ++ [(marker_name i, marker_file c)])%list).
    { cbn [utils.Files]. apply set_file_fresh. apply Hfresh. lia. }
    rewrite IH.
    + rewrite E, <- app_assoc. reflexivity.
    + intros j Hj. rewrite E, map_app, in_app_iff. cbn.
      intros [H | [H | []]].
      * apply (Hfresh j); [lia | exact H].
      * apply marker_name_inj in H. lia.
Qed.

Lemma first_error_none (engine : Engine) (files : list (string * File)) :
  utils.first_error engine files = None
  <-> Forall (fun e => Container_Sync engine (utils.file_container (snd e))
                       = None) files.
Proof.
  induction files as [|[n f] rest IH]; cbn.
  - split; [constructor | reflexivity].
  - destruct (Container_Sync engine (utils.file_container f)) eqn:E.
    + split; [discriminate |]. intros H. inversion H; subst. cbn in *.
      congruence.
    + rewrite IH. split.
      * intros H. constructor; [exact E | exact H].
      * intros H. inversion H; assumption.
Qed.

Lemma markers_sync (engine : Engine) (cs : list Container) (i : nat) :
  Forall (fun e => Container_Sync engine (utils.file_container (snd e))
                   = None) (markers i cs)
  <-> Forall (fun c => Container_Sync engine (WithNewFile "/syncfile" c)
                       = None) cs.
Proof.
  revert i. induction cs as [|c rest IH]; intros i; cbn.
  - split; constructor.
  - split; intros H; inversion H; subst; constructor;
      try assumption; apply (IH (S i)); assumption.
Qed.

Lemma list_names_fresh (l acc : list string) :
  NoDup (acc ++ l) ->
  fold_left (fun acc n => if existsb (String.eqb n) acc then acc
                          else (acc ++ [n])%list) l acc
  = (acc ++ l)%list.
Proof.
  revert acc. induction l as [|n l IH]; intros acc H; cbn.
  - rewrite app_nil_r. reflexivity.
  - assert (Hn : existsb (String.eqb n) acc = false).
    { destruct (existsb (String.eqb n) acc) eqn:E; [| reflexivity].
      apply existsb_exists in E. destruct E as (x & Hx & E).
      apply String.eqb_eq in E. subst x.
      apply NoDup_remove_2 in H. exfalso. apply H.
      apply in_or_app. left. exact Hx. }
    rewrite Hn. rewrite IH.
    + rewrite <- app_assoc. reflexivity.
    + rewrite <- app_assoc. exact H.
Qed.

Lemma Files_aggregate (cs : list Container) :
  utils.Files (marked 0 cs dag_Directory) = markers 0 cs.
Proof.
  rewrite Files_marked; [reflexivity |]. intros j _ H. exact H.
Qed.

Lemma Entries_aggregate (engine : Engine) (cs : list Container) :
  utils.Directory_Entries engine (marked 0 cs dag_Directory)
  = match utils.first_error engine (markers 0 cs) with
    | Some e => ([], Some e)
    | None => (map fst (markers 0 cs), None)
    end.
Proof.
  unfold utils.Directory_Entries.
  rewrite base_marked, Files_aggregate. cbn [utils.base].
  destruct (utils.first_error engine (markers 0 cs)); [reflexivity |].
  rewrite list_names_fresh; [reflexivity |]. apply markers_NoDup.
Qed.

(** C9.  Run on [N] containers, the loop of [Multisync] returns an
    aggregate directory holding exactly [N] files under [N] distinct
    names: the file of index [k] is named syncfile<k> and is the marker
    /syncfile written into the [k]-th container.  [Multisync] then returns
    the error of reading that aggregate back, and the read-back is without
    error exactly when every one of the [N] marker-writing containers
    evaluates without error; it then lists the [N] names.  On no
    container at all the aggregate is the empty directory and [Multisync]
    returns no error. *)
Theorem Multisync_aggregate (engine : Engine) (cs : list Container) :
  exists hck : Directory,
    utils.Multisync_range 0 (map Some cs) dag_Directory tt = Returns hck tt
    /\ length (utils.Files hck) = length cs
    /\ NoDup (map fst (utils.Files hck))
    /\ (forall k c,
          nth_error cs k = Some c ->
          nth_error (utils.Files hck) k
          = Some ("syncfile" ++ utils.Sprintf_v k,
                  Container_File "/syncfile" (WithNewFile "/syncfile" c)))
    /\ utils.Multisync engine (map Some cs) tt
       = Returns (snd (utils.Directory_Entries engine hck)) tt
    /\ (snd (utils.Directory_Entries engine hck) = None
        <-> Forall (fun c => Container_Sync engine (WithNewFile "/syncfile" c)
                             = None) cs)
    /\ (snd (utils.Directory_Entries engine hck) = None ->
        length (fst (utils.Directory_Entries engine hck)) = length cs)
    /\ utils.Multisync_range 0 [] dag_Directory tt = Returns dag_Directory tt
    /\ utils.Directory_Entries engine dag_Directory = ([], None)
    /\ utils.Multisync engine [] tt = Returns None tt.
Proof.
  exists (marked 0 cs dag_Directory).
  split; [apply Multisync_range_marks |].
  rewrite Files_aggregate, Entries_aggregate.
  split; [apply markers_length |].
  split; [apply markers_NoDup |].
  split; [intros k c H; exact (markers_nth cs 0 k c H) |].
  split.
  { unfold utils.Multisync.
    rewrite (bind_returns _ _ tt tt _ (Multisync_range_marks cs 0 _)).
    rewrite Entries_aggregate.
    destruct (utils.first_error engine (markers 0 cs)); reflexivity. }
  split.
  { rewrite <- markers_sync with (i := 0), <- first_error_none.
    destruct (utils.first_error engine (markers 0 cs)); cbn;
      split; congruence. }
  split.
  { destruct (utils.first_error engine (markers 0 cs)); cbn;
      [discriminate |].
    intros _. rewrite length_map. apply markers_length. }
  repeat split.
Qed.

(* ------------------------------------------------------------------ *)
(** ** Further properties of the preparation pipeline *)

(** X1.  When the Build State holds container [c] and project tree [d]
    and the endpoint resolves to [dockerHost], [prepare] returns a
    container with [d] at /src, working directory /src, the dockerd
    service bound as "docker" and DOCKER_HOST set to [dockerHost]; it
    writes nothing to the log and leaves the Build State as it was. *)
Theorem prepare_attached (engine : Engine) (s : Session) (c : Container)
  (d : Directory) (dockerHost : string) :
  Ctr (this s) = Some c ->
  Proj (this s) = Some d ->
  Service_Endpoint engine (resolutions s) (golang.Service "24.0") "tcp"
    = (dockerHost, None) ->
  exists c' : Container,
    returned (golang.prepare engine s) = Some (Some c')
    /\ Dagger.TreeAt "/src" c' = Some d
    /\ Dagger.Workdir c' = Some "/src"
    /\ Dagger.ServiceBinding "docker" c' = Some (golang.Service "24.0")
    /\ Dagger.EnvVariable "DOCKER_HOST" c' = Some dockerHost
    /\ Dagger.Mounts c' = Dagger.Mounts c
    /\ Dagger.Execs c' = Dagger.Execs c
    /\ this (final (golang.prepare engine s)) = this s
    /\ logged (final (golang.prepare engine s)) = logged s.
Proof.
  intros HC HP HE. exists (attached dockerHost (mounted d c)).
  rewrite (prepare_resolved engine s c d dockerHost HC HP HE).
  repeat split.
Qed.

Lemma prepare_attached_witness :
  exists c' : Container,
    returned (golang.prepare reachable session0) = Some (Some c')
    /\ Dagger.TreeAt "/src" c' = Some (LoadedDirectory "project")
    /\ Dagger.Workdir c' = Some "/src".
Proof.
  destruct (prepare_attached reachable session0 golang_1_23
              (LoadedDirectory "project") "tcp://dockerd:2375"
              eq_refl eq_refl eq_refl)
    as (c' & R & T & W & _).
  exists c'. repeat split; assumption.
Defined.

(** X2.  [Test] called without a source on a Build State holding
    container [c] logs a warning and binds the directory /src of [c] as
    the project tree, replacing whatever tree was bound; the Build State
    it ends in, by return or by panic, holds that directory. *)
Theorem Test_without_source_rebinds (engine : Engine) (s : Session)
  (component coverageLocation timeout : string) (c : Container) :
  Ctr (this s) = Some c ->
  this (final (golang.Test engine None component coverageLocation timeout s))
  = {| Ctr := Some c; Proj := Some (Container_Directory "/src" c) |}
  /\ In (log_Println
           "⚠️ Warning: source is nil in Test. Using default project.")
       (logged (final (golang.Test engine None component coverageLocation
                         timeout s))).
Proof.
  intros HC. destruct s as [[ctr proj] l n]. cbn in HC. subst ctr.
  set (s1 := {| this := {| Ctr := Some c;
                           Proj := Some (Container_Directory "/src" c) |};
                logged := (l ++ [log_Println
                  "⚠️ Warning: source is nil in Test. Using default project."])%list;
                resolutions := n |}).
  assert (E : golang.Test engine None component coverageLocation timeout
                {| this := {| Ctr := Some c; Proj := proj |};
                   logged := l; resolutions := n |}
              = (c' <- golang.prepare engine ;;
                 call c' (fun r => Container_Stdout engine
                            (r |> WithExec ["go"; "test"; component;
                                            "-coverprofile"; coverageLocation;
                                            "-timeout"; timeout; "-v"] false)))
                  s1) by reflexivity.
  rewrite E. clear E.
  destruct (Service_Endpoint engine (resolutions s1) (golang.Service "24.0")
              "tcp") as [dockerHost [e|]] eqn:HE.
  - rewrite (bind_returns _ _ _ _ _
               (prepare_unresolved engine s1 c _ dockerHost e
                  eq_refl eq_refl HE)).
    cbn. split; [reflexivity |].
    apply in_or_app. left. apply in_or_app. right. left. reflexivity.
  - rewrite (bind_returns _ _ _ _ _
               (prepare_resolved engine s1 c _ dockerHost
                  eq_refl eq_refl HE)).
    cbn. split; [reflexivity |].
    apply in_or_app. right. left. reflexivity.
Qed.

Lemma Test_without_source_rebinds_witness :
  this (final (golang.Test reachable None "./..." "./" "180s" session0))
  = {| Ctr := Some golang_1_23;
       Proj := Some (Container_Directory "/src" golang_1_23) |}.
Proof.
  exact (proj1 (Test_without_source_rebinds reachable session0 "./..." "./"
                  "180s" golang_1_23 eq_refl)).
Defined.

(* ------------------------------------------------------------------ *)
(** ** What the operations change and what they leave alone *)

(** The four ways [prepare] can end. *)
Lemma prepare_cases (engine : Engine) (s : Session) :
  (Proj (this s) = None
   /\ golang.prepare engine s
      = Panics "unexpected nil pointer for argument directory" s)
  \/ (exists d, Proj (this s) = Some d /\ Ctr (this s) = None
       /\ golang.prepare engine s
          = Panics "invalid memory address or nil pointer dereference" s)
  \/ (exists c d dockerHost,
        Ctr (this s) = Some c /\ Proj (this s) = Some d
        /\ Service_Endpoint engine (resolutions s) (golang.Service "24.0")
             "tcp" = (dockerHost, None)
        /\ golang.prepare engine s
           = Returns (Some (attached dockerHost (mounted d c)))
               (resolved_once s))
  \/ (exists c d dockerHost e,
        Ctr (this s) = Some c /\ Proj (this s) = Some d
        /\ Service_Endpoint engine (resolutions s) (golang.Service "24.0")
             "tcp" = (dockerHost, Some e)
        /\ golang.prepare engine s
           = Returns None
               {| this := this s;
                  logged := (logged s ++ [log_Printf e])%list;
                  resolutions := S (resolutions s) |}).
Proof.
  destruct (Proj (this s)) as [d|] eqn:HP.
  - destruct (Ctr (this s)) as [c|] eqn:HC.
    + destruct (Service_Endpoint engine (resolutions s)
                  (golang.Service "24.0") "tcp") as [dockerHost [e|]] eqn:HE.
      * right. right. right. exists c, d, dockerHost, e.
        repeat split; try assumption.
        exact (prepare_unresolved engine s c d dockerHost e HC HP HE).
      * right. right. left. exists c, d, dockerHost.
        repeat split; try assumption.
        exact (prepare_resolved engine s c d dockerHost HC HP HE).
    + right. left. exists d. repeat split.
      unfold golang.prepare, bind, get_this. rewrite HP, HC. reflexivity.
  - left. split; [reflexivity |].
    unfold golang.prepare, bind, get_this. rewrite HP. reflexivity.
Qed.

(** X3.  However it ends, [prepare] leaves the Build State as it found
    it.  It resolves the endpoint at most once, and it writes to the log
    only when it returns nil, namely the one line carrying the resolution
    error; it returns nil exactly in that case. *)
Theorem prepare_frame (engine : Engine) (s : Session) :
  this (final (golang.prepare engine s)) = this s
  /\ (resolutions (final (golang.prepare engine s)) = resolutions s
      \/ resolutions (final (golang.prepare engine s)) = S (resolutions s))
  /\ (returned (golang.prepare engine s) = Some None
      <-> exists e, logged (final (golang.prepare engine s))
                    = (logged s ++ [log_Printf e])%list)
  /\ (returned (golang.prepare engine s) <> Some None ->
      logged (final (golang.prepare engine s)) = logged s).
Proof.
  assert (Hgrow : forall (l : list LogLine) x, l <> (l ++ [x])%list).
  { intros l x H. apply (f_equal (@length LogLine)) in H.
    rewrite length_app in H. cbn in H. lia. }
  destruct (prepare_cases engine s)
    as [(HP & E) | [(d & HP & HC & E) | [(c & d & a & HC & HP & HE & E)
       | (c & d & a & e & HC & HP & HE & E)]]]; rewrite E; cbn.
  - repeat split; auto; try discriminate.
    intros (e & H). exfalso. exact (Hgrow _ _ H).
  - repeat split; auto; try discriminate.
    intros (e & H). exfalso. exact (Hgrow _ _ H).
  - repeat split; auto; try discriminate.
    intros (e & H). exfalso. exact (Hgrow _ _ H).
  - repeat split; auto.
    + exists e. reflexivity.
    + intros H. exfalso. apply H. reflexivity.
Qed.

(** X4.  However [Build] ends, the Build State it leaves holds the
    container handle it found and, as project tree, the source it was
    given, or the tree it found when given none: [Build] rebinds the
    project for the rest of the session and never touches the container
    handle. *)
Theorem Build_frame (engine : Engine) (host : Runtime) (s : Session)
  (source : option Directory) (args : list string) (arch os : string) :
  Ctr (this (final (golang.Build engine host source args arch os s)))
    = Ctr (this s)
  /\ Proj (this (final (golang.Build engine host source args arch os s)))
     = project_for source s.
Proof.
  destruct (rebound_facts source s) as (FC & FP & _ & _).
  unfold golang.Build.
  rewrite (bind_returns _ _ s (rebound source s) tt
             (rebind_returns source s)).
  unfold bind.
  destruct (prepare_cases engine (rebound source s))
    as [(HP & E) | [(d & HP & HC & E) | [(c & d & a & HC & HP & HE & E)
       | (c & d & a & e & HC & HP & HE & E)]]]; rewrite E; cbn;
    rewrite FC, FP; split; reflexivity.
Qed.

(** X5.  On a Build State made by [New] from a container [c], [prepare]
    never panics, whether or not a project tree was passed: it returns a
    container that has the passed tree (or the directory /src of [c]) at
    /src when the endpoint resolves, and nil when it does not. *)
Theorem New_then_prepare (engine : Engine) (s : Session) (c : Container)
  (proj : option Directory) :
  let d := match proj with
           | Some d => d
           | None => Container_Directory "/src" c
           end in
  exists s1,
    golang.New (Some c) proj s = Returns tt s1
    /\ resolutions s1 = resolutions s
    /\ match snd (Service_Endpoint engine (resolutions s)
                    (golang.Service "24.0") "tcp") with
       | None =>
           exists c', returned (golang.prepare engine s1) = Some (Some c')
                      /\ Dagger.TreeAt "/src" c' = Some d
                      /\ Dagger.Workdir c' = Some "/src"
       | Some _ => returned (golang.prepare engine s1) = Some None
       end.
Proof.
  cbv zeta.
  set (d := match proj with
            | Some d => d
            | None => Container_Directory "/src" c
            end).
  assert (E : exists l, golang.New (Some c) proj s
              = Returns tt {| this := {| Ctr := Some c; Proj := Some d |};
                              logged := l;
                              resolutions := resolutions s |}).
  { destruct proj; eexists; reflexivity. }
  destruct E as (l & E). eexists. split; [exact E |]. split; [reflexivity |].
  set (s1 := {| this := {| Ctr := Some c; Proj := Some d |};
                logged := l; resolutions := resolutions s |}).
  change (resolutions s) with (resolutions s1).
  destruct (Service_Endpoint engine (resolutions s1) (golang.Service "24.0")
              "tcp") as [a [e|]] eqn:HE; cbn [snd].
  - rewrite (prepare_unresolved engine s1 c d a e eq_refl eq_refl HE).
    reflexivity.
  - rewrite (prepare_resolved engine s1 c d a eq_refl eq_refl HE).
    eexists. repeat split.
Qed.

(* ------------------------------------------------------------------ *)
(** ** The other operations *)

(** The container on which [Build] runs its command. *)
Definition build_env (host : Runtime) (arch os dockerHost : string)
  (d : Directory) (c : Container) : Container :=
  attached dockerHost (mounted d c)
  |> WithEnvVariable "GOARCH"
       (if String.eqb arch "" then runtime_GOARCH host else arch)
  |> WithEnvVariable "GOOS"
       (if String.eqb os "" then runtime_GOOS host else os).

Lemma Build_returns (engine : Engine) (host : Runtime) (s : Session)
  (source : option Directory) (args : list string) (arch os : string)
  (c : Container) (d : Directory) (dockerHost : string) :
  Ctr (this s) = Some c ->
  project_for source s = Some d ->
  Service_Endpoint engine (resolutions s) (golang.Service "24.0") "tcp"
    = (dockerHost, None) ->
  golang.Build engine host source args arch os s
  = Returns
      (Container_Directory "/out/"
         (WithExec (["go"; "build"; "-o"; "/out/"] ++ args)%list false
            (build_env host arch os dockerHost d c)))
      (resolved_once (rebound source s)).
Proof.
  intros HC HP HE. unfold golang.Build.
  rewrite (bind_returns _ _ s (rebound source s) tt
             (rebind_returns source s)).
  rewrite (bind_returns _ _ _ _ _
             (prepare_rebound_resolved engine s source c d dockerHost
                HC HP HE)).
  reflexivity.
Qed.

(** X6.  When [Build] succeeds, [BuildContainer] returns the base
    container it was given, or one from ubuntu:latest when given none,
    with the directory [Build] returned written at /usr/local/bin/.  The
    returned container runs no command and has no mount beyond those of
    the base: the build itself ran in the build container. *)
Theorem BuildContainer_copies_build (engine : Engine) (host : Runtime)
  (s : Session) (source : option Directory) (args : list string)
  (arch os : string) (base : option Container) (c : Container)
  (d : Directory) (dockerHost : string) :
  Ctr (this s) = Some c ->
  project_for source s = Some d ->
  Service_Endpoint engine (resolutions s) (golang.Service "24.0") "tcp"
    = (dockerHost, None) ->
  let b := match base with
           | Some b => b
           | None => From "ubuntu:latest" dag_Container
           end in
  exists dir result,
    returned (golang.Build engine host source args arch os s) = Some dir
    /\ returned (golang.BuildContainer engine host source args arch os base s)
       = Some result
    /\ result = WithDirectory "/usr/local/bin/" dir b
    /\ Dagger.TreeAt "/usr/local/bin/" result = Some dir
    /\ Dagger.Execs result = Dagger.Execs b
    /\ Dagger.Mounts result = Dagger.Mounts b
    /\ Dagger.Image result = Dagger.Image b
    /\ final (golang.BuildContainer engine host source args arch os base s)
       = final (golang.Build engine host source args arch os s).
Proof.
  intros HC HP HE b. unfold golang.BuildContainer.
  rewrite (bind_returns _ _ _ _ _
             (Build_returns engine host s source args arch os c d dockerHost
                HC HP HE)).
  rewrite (Build_returns engine host s source args arch os c d dockerHost
             HC HP HE).
  eexists. eexists. repeat split.
Qed.

Lemma BuildContainer_copies_build_witness :
  exists dir result,
    returned (golang.BuildContainer reachable amd64_linux None ["."] "" ""
                None session0) = Some result
    /\ Dagger.TreeAt "/usr/local/bin/" result = Some dir
    /\ Dagger.Image result = Some "ubuntu:latest".
Proof.
  destruct (BuildContainer_copies_build reachable amd64_linux session0 None
              ["."] "" "" None golang_1_23 (LoadedDirectory "project")
              "tcp://dockerd:2375" eq_refl eq_refl eq_refl)
    as (dir & result & _ & R & _ & T & _ & _ & I & _).
  exists dir, result. repeat split; assumption.
Defined.

(** X7.  [BuildRemote] on a Build State holding container [c], when the
    endpoint resolves, returns the directory /src/build/ of the container
    that runs exactly go build -o build/ [module] on the prepared
    container, in which the tree at /src is branch [ref] of
    https://[remote]; and it leaves that git tree bound as the project
    tree of the session, whatever was bound before. *)
Theorem BuildRemote_builds_git_tree (engine : Engine) (host : Runtime)
  (s : Session) (remote ref module arch platform : string) (c : Container)
  (dockerHost : string) :
  Ctr (this s) = Some c ->
  Service_Endpoint engine (resolutions s) (golang.Service "24.0") "tcp"
    = (dockerHost, None) ->
  let git := Git_Branch_Tree ("https://" ++ remote) ref in
  exists run_on,
    returned (golang.BuildRemote engine host remote ref module arch platform s)
    = Some (Container_Directory "/src/build/"
              (WithExec ["go"; "build"; "-o"; "build/"; module] false run_on))
    /\ Dagger.TreeAt "/src" run_on = Some git
    /\ Dagger.Workdir run_on = Some "/src"
    /\ Dagger.EnvVariable "GOARCH" run_on
       = Some (if String.eqb arch "" then runtime_GOARCH host else arch)
    /\ Dagger.EnvVariable "GOOS" run_on
       = Some (if String.eqb platform "" then runtime_GOOS host else platform)
    /\ this (final (golang.BuildRemote engine host remote ref module arch
                      platform s))
       = {| Ctr := Some c; Proj := Some git |}.
Proof.
  intros HC HE git.
  assert (E := prepare_rebound_resolved engine s (Some git) c git dockerHost
                 HC eq_refl HE).
  unfold golang.BuildRemote. fold git.
  rewrite (bind_returns _ _ s (rebound (Some git) s) tt eq_refl).
  rewrite (bind_returns _ _ _ _ _ E).
  cbn [call ret returned final resolved_once rebound this].
  rewrite HC.
  eexists. repeat split.
Qed.

Lemma BuildRemote_builds_git_tree_witness :
  Proj (this (final (golang.BuildRemote reachable amd64_linux
                       "github.com/org/repo" "main" "./cmd/app" "" ""
                       session0)))
  = Some (Git_Branch_Tree "https://github.com/org/repo" "main").
Proof.
  destruct (BuildRemote_builds_git_tree reachable amd64_linux session0
              "github.com/org/repo" "main" "./cmd/app" "" "" golang_1_23
              "tcp://dockerd:2375" eq_refl eq_refl)
    as (run_on & _ & _ & _ & _ & _ & F).
  rewrite F. reflexivity.
Defined.

(** The tree [Test] and [GolangciLint] work on when called with [source]:
    the source, or the directory /src of the current container. *)
Definition source_or_mount (source : option Directory) (s : Session)
  : option Directory :=
  match source with
  | Some _ => source
  | None => option_map (Container_Directory "/src") (Ctr (this s))
  end.

(** X8.  [GolangciLint] lints the tree [d] it is given, or the directory
    /src of the current container when given none (not the tree bound in
    the Build State).  It runs golangci-lint run -v --timeout [timeout] in
    a container from the lint image whose only mount is [d] at /src, with
    working directory /src/[component] and no dockerd bound; it resolves
    no endpoint, keeps the container handle and leaves [d] bound. *)
Theorem GolangciLint_runs_unattached (engine : Engine) (s : Session)
  (source : option Directory) (component timeout : string) (d : Directory) :
  source_or_mount source s = Some d ->
  exists linted,
    returned (golang.GolangciLint engine source component timeout s)
    = Some (Container_Stdout engine linted)
    /\ Dagger.Image linted = Some "golangci/golangci-lint:latest"
    /\ Dagger.Mounts linted = [("/src", Dagger.MountedDirectory d)]
    /\ Dagger.Workdir linted = Some ("/src/" ++ component)
    /\ map Dagger.exec_args (Dagger.Execs linted)
       = [["golangci-lint"; "run"; "-v"; "--timeout"; timeout]]
    /\ Dagger.ServiceBinding "docker" linted = None
    /\ resolutions (final (golang.GolangciLint engine source component
                             timeout s)) = resolutions s
    /\ this (final (golang.GolangciLint engine source component timeout s))
       = {| Ctr := Ctr (this s); Proj := Some d |}.
Proof.
  intros H. destruct s as [[ctr proj] l n].
  destruct source as [d'|]; cbn in H.
  - injection H as ->. eexists. repeat split.
  - destruct ctr as [c|]; cbn in H; [| discriminate H].
    injection H as <-. eexists. repeat split.
Qed.

Lemma GolangciLint_runs_unattached_witness :
  Proj (this (final (golang.GolangciLint unreachable None "pkg" "5m"
                       session0)))
  = Some (Container_Directory "/src" golang_1_23).
Proof.
  destruct (GolangciLint_runs_unattached unreachable session0 None "pkg" "5m"
              (Container_Directory "/src" golang_1_23) eq_refl)
    as (linted & _ & _ & _ & _ & _ & _ & _ & F).
  rewrite F. reflexivity.
Defined.

(** X9.  [Test] on a Build State holding container [c], when the
    endpoint resolves, returns what the engine reads from the standard
    output of the container that runs exactly go test [component]
    -coverprofile [coverageLocation] -timeout [timeout] -v on the prepared
    container; the tree at /src there is the source given, or the
    directory /src of [c] when none is given. *)
Theorem Test_command (engine : Engine) (s : Session)
  (source : option Directory) (component coverageLocation timeout : string)
  (c : Container) (dockerHost : string) :
  Ctr (this s) = Some c ->
  Service_Endpoint engine (resolutions s) (golang.Service "24.0") "tcp"
    = (dockerHost, None) ->
  let d := match source with
           | Some d => d
           | None => Container_Directory "/src" c
           end in
  exists run_on,
    returned (golang.Test engine source component coverageLocation timeout s)
    = Some (Container_Stdout engine
              (WithExec ["go"; "test"; component; "-coverprofile";
                         coverageLocation; "-timeout"; timeout; "-v"]
                 false run_on))
    /\ Dagger.TreeAt "/src" run_on = Some d
    /\ Dagger.Workdir run_on = Some "/src"
    /\ Dagger.EnvVariable "DOCKER_HOST" run_on = Some dockerHost
    /\ Dagger.Execs run_on = Dagger.Execs c.
Proof.
  intros HC HE d. destruct s as [[ctr proj] l n]. cbn in HC, HE. subst ctr.
  exists (attached dockerHost (mounted d c)).
  split; [| repeat split].
  destruct source as [d'|].
  - set (s1 := {| this := {| Ctr := Some c; Proj := Some d' |};
                  logged := l; resolutions := n |}).
    change (golang.Test engine (Some d') component coverageLocation timeout
              {| this := {| Ctr := Some c; Proj := proj |};
                 logged := l; resolutions := n |})
      with ((c' <- golang.prepare engine ;;
             call c' (fun r => Container_Stdout engine
                        (r |> WithExec ["go"; "test"; component;
                                        "-coverprofile"; coverageLocation;
                                        "-timeout"; timeout; "-v"] false)))
              s1).
    rewrite (bind_returns _ _ _ _ _
               (prepare_resolved engine s1 c d' dockerHost
                  eq_refl eq_refl HE)).
    reflexivity.
  - set (s1 := {| this := {| Ctr := Some c;
                             Proj := Some (Container_Directory "/src" c) |};
                  logged := (l ++ [log_Println
                    "⚠️ Warning: source is nil in Test. Using default project."])%list;
                  resolutions := n |}).
    change (golang.Test engine None component coverageLocation timeout
              {| this := {| Ctr := Some c; Proj := proj |};
                 logged := l; resolutions := n |})
      with ((c' <- golang.prepare engine ;;
             call c' (fun r => Container_Stdout engine
                        (r |> WithExec ["go"; "test"; component;
                                        "-coverprofile"; coverageLocation;
                                        "-timeout"; timeout; "-v"] false)))
              s1).
    rewrite (bind_returns _ _ _ _ _
               (prepare_resolved engine s1 c _ dockerHost
                  eq_refl eq_refl HE)).
    reflexivity.
Qed.

Lemma Test_command_witness :
  exists run_on,
    returned (golang.Test reachable (Some (LoadedDirectory "other")) "./..."
                "./" "30s" session0)
    = Some (Container_Stdout reachable
              (WithExec ["go"; "test"; "./..."; "-coverprofile"; "./";
                         "-timeout"; "30s"; "-v"] false run_on))
    /\ Dagger.TreeAt "/src" run_on = Some (LoadedDirectory "other").
Proof.
  destruct (Test_command reachable session0 (Some (LoadedDirectory "other"))
              "./..." "./" "30s" golang_1_23 "tcp://dockerd:2375"
              eq_refl eq_refl)
    as (run_on & R & T & _).
  exists run_on. split; assumption.
Defined.

(* ------------------------------------------------------------------ *)
(** ** Edge cases and composition *)

(** X10.  [Attach] on a nil container still resolves the endpoint first:
    when the resolution fails it returns the error and nil without
    panicking, and when it succeeds it panics on the nil container.  The
    Build State and the log are untouched either way. *)
Theorem Attach_nil_container (engine : Engine) (s : Session) :
  match snd (Service_Endpoint engine (resolutions s) (golang.Service "24.0")
               "tcp") with
  | Some e => golang.Attach engine None s
              = Returns (None, Some e) (resolved_once s)
  | None => golang.Attach engine None s
            = Panics "invalid memory address or nil pointer dereference"
                (resolved_once s)
  end.
Proof.
  destruct (Service_Endpoint engine (resolutions s) (golang.Service "24.0")
              "tcp") as [a [e|]] eqn:HE; cbn [snd].
  - exact (Attach_unresolved engine s None a e HE).
  - unfold golang.Attach, bind, Endpoint. rewrite HE. reflexivity.
Qed.

(** X11.  The setters compose as assignments: [Container] reads back what
    [WithContainer] stored, the later of two [WithProject] calls wins,
    [WithProject] and [WithContainer] commute, and neither writes to the
    log nor resolves an endpoint. *)
Theorem setters_compose (s : Session) (c c' : option Container)
  (d d' : option Directory) :
  returned ((golang.WithContainer c ;; golang.Container) s) = Some c
  /\ (golang.WithProject d ;; golang.WithProject d') s
     = golang.WithProject d' s
  /\ (golang.WithContainer c ;; golang.WithContainer c') s
     = golang.WithContainer c' s
  /\ (golang.WithProject d ;; golang.WithContainer c) s
     = (golang.WithContainer c ;; golang.WithProject d) s
  /\ final ((golang.WithProject d ;; golang.WithContainer c) s)
     = {| this := {| Ctr := c; Proj := d |}; logged := logged s;
          resolutions := resolutions s |}.
Proof. destruct s as [[ctr proj] l n]. repeat split. Qed.

Lemma length_append (a b : string) :
  String.length (a ++ b) = String.length a + String.length b.
Proof. induction a as [|x a IH]; cbn; [reflexivity | rewrite IH; reflexivity]. Qed.

Lemma append_cancel_r (t a b : string) : a ++ t = b ++ t -> a = b.
Proof.
  revert b. induction a as [|x a IH]; intros [|y b] H; cbn in H.
  - reflexivity.
  - apply (f_equal String.length) in H. cbn in H.
    rewrite length_append in H. lia.
  - apply (f_equal String.length) in H. cbn in H.
    rewrite length_append in H. lia.
  - injection H as -> H. rewrite (IH b H). reflexivity.
Qed.

(** X12.  Different daemon versions give services with different images
    and different docker-lib cache volumes: no two versions share a
    cache volume. *)
Theorem Service_separates_versions (v1 v2 : string) :
  v1 <> v2 ->
  Dagger.Image (Dagger.service_container (golang.Service v1))
    <> Dagger.Image (Dagger.service_container (golang.Service v2))
  /\ Dagger.CacheVolumes (Dagger.service_container (golang.Service v1))
     <> Dagger.CacheVolumes (Dagger.service_container (golang.Service v2)).
Proof.
  intros Hne. split; intros H; apply Hne; cbn in H.
  - injection H as H. exact (append_cancel_r "-dind" v1 v2 H).
  - injection H as H. exact (append_cancel_r "-docker-lib" v1 v2 H).
Qed.

Lemma Service_separates_versions_witness :
  Dagger.CacheVolumes (Dagger.service_container (golang.Service "24.0"))
  <> Dagger.CacheVolumes (Dagger.service_container (golang.Service "25.0")).
Proof.
  exact (proj2 (Service_separates_versions "24.0" "25.0"
                  ltac:(discriminate))).
Defined.

(** X13.  When both endpoint resolutions of [Vulncheck] succeed, it
    returns having resolved the endpoint twice and logged nothing.  The
    container it leaves as the current one is already attached: it holds
    the project tree at /src, the dockerd binding and DOCKER_HOST from the
    first resolution.  The scanner runs on a container prepared on top of
    it, whose DOCKER_HOST is the address of the second resolution. *)
Theorem Vulncheck_attaches_twice (engine : Engine) (s : Session)
  (source : option Directory) (component : string) (c : Container)
  (d : Directory) (dockerHost1 dockerHost2 : string) :
  Ctr (this s) = Some c ->
  project_for source s = Some d ->
  Service_Endpoint engine (resolutions s) (golang.Service "24.0") "tcp"
    = (dockerHost1, None) ->
  Service_Endpoint engine (S (resolutions s)) (golang.Service "24.0") "tcp"
    = (dockerHost2, None) ->
  exists stored scanned s',
    golang.Vulncheck engine source component s
    = Returns (Container_Stdout engine scanned) s'
    /\ this s' = {| Ctr := Some stored; Proj := Some d |}
    /\ resolutions s' = 2 + resolutions s
    /\ logged s' = logged s
    /\ Dagger.TreeAt "/src" stored = Some d
    /\ Dagger.ServiceBinding "docker" stored = Some (golang.Service "24.0")
    /\ Dagger.EnvVariable "DOCKER_HOST" stored = Some dockerHost1
    /\ Dagger.EnvVariable "DOCKER_HOST" scanned = Some dockerHost2
    /\ Dagger.depth scanned = 10 + Dagger.depth c.
Proof.
  intros HC HP HE1 HE2.
  rewrite (Vulncheck_first_half engine s source component c d dockerHost1
             HC HP HE1).
  set (stored := WithExec install_govulncheck false
                   (attached dockerHost1 (mounted d c))).
  set (s2 := installed_session source s stored).
  assert (HP2 : Proj (this s2) = Some d) by exact HP.
  rewrite (bind_returns _ _ _ _ _
             (prepare_resolved engine s2 stored d dockerHost2
                eq_refl HP2 HE2)).
  exists stored. eexists. eexists. split; [reflexivity |].
  cbn [resolved_once this resolutions logged s2 installed_session].
  rewrite HP. repeat split.
Qed.

Lemma Vulncheck_attaches_twice_witness :
  resolutions (final (golang.Vulncheck reachable None "./..." session0)) = 2.
Proof.
  destruct (Vulncheck_attaches_twice reachable session0 None "./..."
              golang_1_23 (LoadedDirectory "project") "tcp://dockerd:2375"
              "tcp://dockerd:2375" eq_refl eq_refl eq_refl eq_refl)
    as (stored & scanned & s' & E & _ & R & _).
  rewrite E. exact R.
Defined.

(** X14.  With a project tree [d] bound, [Base] discards the current
    container: the one it stores is built from the golang image alone, so
    it depends on the version and on [d] only, runs no command and has
    nothing at /src.  Its mounts are the two caches and [d]/vendor at
    /src/vendor (mounted twice by the code, present once), with
    GOFLAGS=-mod=vendor.  The project tree, the log and the resolution
    count are unchanged. *)
Theorem Base_replaces_container (version : string) (s : Session)
  (d : Directory) :
  Proj (this s) = Some d ->
  exists c',
    golang.Base version s
    = Returns tt {| this := {| Ctr := Some c'; Proj := Some d |};
                    logged := logged s; resolutions := resolutions s |}
    /\ (forall s2, Proj (this s2) = Some d ->
                   Ctr (this (final (golang.Base version s2))) = Some c')
    /\ Dagger.Image c' = Some ("golang:" ++ version)
    /\ Dagger.Mounts c'
       = [("/go/pkg/mod",
           Dagger.MountedCache (dag_CacheVolume "gomodcache") Shared);
          ("/root/.cache/go-build",
           Dagger.MountedCache (dag_CacheVolume "gobuildcache") Shared);
          ("/src/vendor",
           Dagger.MountedDirectory (Directory_Directory "vendor" d))]
    /\ Dagger.EnvVariable "GOFLAGS" c' = Some "-mod=vendor"
    /\ Dagger.TreeAt "/src/vendor" c' = Some (Directory_Directory "vendor" d)
    /\ Dagger.TreeAt "/src" c' = None
    /\ Dagger.Execs c' = [].
Proof.
  intros HP. exists (based version d).
  split; [exact (Base_bound version s d HP) |].
  split.
  - intros s2 HP2. rewrite (Base_bound version s2 d HP2). reflexivity.
  - repeat split.
Qed.

Lemma Base_replaces_container_witness :
  exists c',
    Ctr (this (final (golang.Base "1.22" session0))) = Some c'
    /\ Dagger.Image c' = Some "golang:1.22"
    /\ Dagger.Execs c' = [].
Proof.
  destruct (Base_replaces_container "1.22" session0
              (LoadedDirectory "project") eq_refl)
    as (c' & E & _ & I & _ & _ & _ & _ & X).
  exists c'. rewrite E. repeat split; assumption.
Defined.

(** X15.  In the first file of part_000, [New] never panics and always
    yields a Build State with both handles present: the container passed,
    or a golang:1.23.4 container with the two go caches; the tree passed,
    or the directory "." of that container.  Its [Base] panics when no
    tree is bound and otherwise stores a container with the same two
    caches. *)
Theorem first_revision_New_total (ctr : option Container)
  (proj : option Directory) (s : Session) :
  exists c d,
    returned (part_000_first.New ctr proj s) = Some tt
    /\ this (final (part_000_first.New ctr proj s))
       = {| Ctr := Some c; Proj := Some d |}
    /\ match ctr with
       | Some c0 => c = c0
       | None => Dagger.Image c = Some "golang:1.23.4"
                 /\ Dagger.CacheVolumes c = go_caches
       end
    /\ match proj with
       | Some d0 => d = d0
       | None => d = Container_Directory "." c
       end
    /\ resolutions (final (part_000_first.New ctr proj s)) = resolutions s
    /\ part_000_first.Base
         {| this := {| Ctr := Some c; Proj := None |}; logged := logged s;
            resolutions := resolutions s |}
       = Panics "invalid memory address or nil pointer dereference"
           {| this := {| Ctr := Some c; Proj := None |}; logged := logged s;
              resolutions := resolutions s |}
    /\ exists c2,
         Ctr (this (final (part_000_first.Base
                             (final (part_000_first.New ctr proj s)))))
         = Some c2
         /\ Dagger.CacheVolumes c2 = go_caches.
Proof.
  destruct ctr as [c0|], proj as [d0|]; eexists; eexists;
    repeat split; eexists; split; reflexivity.
Qed.

Lemma Multisync_range_nil (cs1 : list Container)
  (cs2 : list (option Container)) (i : nat) (hck : Directory) :
  utils.Multisync_range i (map Some cs1 ++ None :: cs2)%list hck tt
  = Panics "invalid memory address or nil pointer dereference" tt.
Proof.
  revert i hck. induction cs1 as [|c rest IH]; intros i hck.
  - reflexivity.
  - cbn [map app utils.Multisync_range call].
    rewrite (bind_returns _ _ tt tt _ (eq_refl : ret _ _ = Returns _ _)).
    apply IH.
Qed.

(** X16.  [Multisync] on a list holding a nil container panics, wherever
    the nil stands and whatever the engine would answer: the aggregate is
    never read back. *)
Theorem Multisync_nil_panics (engine : Engine) (cs1 : list Container)
  (cs2 : list (option Container)) :
  utils.Multisync engine (map Some cs1 ++ None :: cs2)%list tt
  = Panics "invalid memory address or nil pointer dereference" tt.
Proof.
  unfold utils.Multisync, bind.
  rewrite Multisync_range_nil. reflexivity.
Qed.

(** The three containers whose standard output [Testdebug] reads. *)
Definition debug_mkdir (c : Container) : Container :=
  c |> WithExec ["mkdir"; "-p"; "/src"] false.

Definition debug_test (component timeout dockerHost : string)
  (d : Directory) (c : Container) : Container :=
  attached dockerHost (mounted d c)
  |> WithExec ["go"; "test"; component; "-coverprofile=/src/overage.txt";
               "-timeout"; timeout; "-v"] false.

Definition debug_ls (c : Container) : Container :=
  c |> WithExec ["ls"; "-la"; "/src"] false.

(** X17.  [Testdebug] of the second file of part_000, on a Build State
    holding container [c] with project tree [d] in force and a resolving
    endpoint, returns a nil error exactly when the engine reports no error
    for three containers: mkdir -p /src on [c], go test on the prepared
    container, and ls -la /src on [c].  The two checks run on [c] itself,
    whose commands do not include the go test.  With a nil error the text
    returned is the go test output; with any error the text is empty. *)
Theorem Testdebug_outcomes (engine : Engine) (s : Session)
  (source : option Directory) (component timeout : string) (c : Container)
  (d : Directory) (dockerHost : string) :
  Ctr (this s) = Some c ->
  project_for source s = Some d ->
  Service_Endpoint engine (resolutions s) (golang.Service "24.0") "tcp"
    = (dockerHost, None) ->
  let mk := Container_Stdout engine (debug_mkdir c) in
  let tst := Container_Stdout engine
               (debug_test component timeout dockerHost d c) in
  let ls := Container_Stdout engine (debug_ls c) in
  exists out err,
    returned (part_000_second.Testdebug engine source component timeout s)
    = Some (out, err)
    /\ (err = None <-> snd mk = None /\ snd tst = None /\ snd ls = None)
    /\ (err = None -> out = fst tst)
    /\ (err <> None -> out = "")
    /\ (forall e, snd mk = Some e ->
                  err = Some ("Failed to create directory /src: " ++ e))
    /\ Dagger.Execs (debug_ls c)
       = (Dagger.Execs c
          ++ [{| Dagger.exec_args := ["ls"; "-la"; "/src"];
                 Dagger.exec_insecure := false;
                 Dagger.exec_on := c |}])%list.
Proof.
  intros HC HP HE mk tst ls.
  destruct (rebound_facts source s) as (FC & FP & _ & FR).
  assert (HC1 : Ctr (this (rebound source s)) = Some c)
    by (rewrite FC; exact HC).
  assert (HP1 : Proj (this (rebound source s)) = Some d)
    by (rewrite FP; exact HP).
  assert (HE1 : Service_Endpoint engine (resolutions (rebound source s))
                  (golang.Service "24.0") "tcp" = (dockerHost, None))
    by (rewrite FR; exact HE).
  unfold part_000_second.Testdebug.
  rewrite (bind_returns _ _ s (rebound source s) tt
             (rebind_returns source s)).
  rewrite (bind_returns _ _ _ _ _
             (eq_refl : get_this (rebound source s) = Returns _ _)).
  rewrite HC1. cbn [call].
  rewrite (bind_returns _ _ _ _ _ (eq_refl : ret _ _ = Returns _ _)).
  fold (debug_mkdir c). fold mk.
  destruct mk as [o1 [e1|]] eqn:Emk.
  { exists "", (Some ("Failed to create directory /src: " ++ e1)).
    cbn. repeat split; try discriminate; try reflexivity.
    - intros (H & _). discriminate H.
    - intros e H. injection H as ->. reflexivity. }
  rewrite (bind_returns _ _ _ _ _
             (prepare_resolved engine (rebound source s) c d dockerHost
                HC1 HP1 HE1)).
  cbn [call].
  rewrite (bind_returns _ _ _ _ _ (eq_refl : ret _ _ = Returns _ _)).
  change (WithExec ["go"; "test"; component; "-coverprofile=/src/overage.txt";
                   "-timeout"; timeout; "-v"] false
            (attached dockerHost (mounted d c)))
    with (debug_test component timeout dockerHost d c).
  fold tst.
  destruct tst as [o2 [e2|]] eqn:Etst.
  { eexists "", _. cbn. repeat split; try discriminate; try reflexivity.
    intros (_ & H & _). discriminate H. }
  rewrite (bind_returns _ _ _ _ _
             (eq_refl : get_this (resolved_once (rebound source s))
                        = Returns _ _)).
  cbn [resolved_once this]. rewrite HC1. cbn [call].
  rewrite (bind_returns _ _ _ _ _ (eq_refl : ret _ _ = Returns _ _)).
  fold (debug_ls c). fold ls.
  destruct ls as [o3 [e3|]] eqn:Els.
  { eexists "", _. cbn. repeat split; try discriminate; try reflexivity.
    intros (_ & _ & H). discriminate H. }
  exists o2, None. cbn. repeat split; try discriminate; try reflexivity.
  intros H. exfalso. apply H. reflexivity.
Qed.

Lemma Testdebug_outcomes_witness :
  returned (part_000_second.Testdebug reachable None "./..." "30s" session0)
  = Some ("ok", None).
Proof.
  destruct (Testdebug_outcomes reachable session0 None "./..." "30s"
              golang_1_23 (LoadedDirectory "project") "tcp://dockerd:2375"
              eq_refl eq_refl eq_refl)
    as (out & err & R & Hiff & Hout & _).
  assert (E : err = None) by (apply Hiff; repeat split).
  rewrite R. rewrite (Hout E). rewrite E. reflexivity.
Defined.

(* ------------------------------------------------------------------ *)
(** ** Concrete runs *)

Example Sprintf_v_digits :
  map utils.Sprintf_v [0; 7; 10; 123] = ["0"; "7"; "10"; "123"].
Proof. reflexivity. Qed.

Example Multisync_five :
  let cs := repeat golang_1_23 5 in
  utils.Multisync reachable (map Some cs) tt = Returns None tt
  /\ utils.Directory_Entries reachable (marked 0 cs dag_Directory)
     = (["syncfile0"; "syncfile1"; "syncfile2"; "syncfile3"; "syncfile4"],
        None).
Proof. split; reflexivity. Qed.

Example Multisync_nil_container :
  utils.Multisync reachable [Some golang_1_23; None] tt
  = Panics "invalid memory address or nil pointer dereference" tt.
Proof. reflexivity. Qed.

Example New_without_container_on_fresh_session :
  golang.New None (Some (LoadedDirectory "project")) fresh
  = Panics "invalid memory address or nil pointer dereference" fresh.
Proof. reflexivity. Qed.

Example Build_on_unreachable_engine :
  golang.Build unreachable amd64_linux None ["."] "" "" session0
  = Panics "invalid memory address or nil pointer dereference"
      {| this := this session0;
         logged := [log_Printf "service endpoint: dial failed"];
         resolutions := 1 |}.
Proof. reflexivity. Qed.

Example prepare_on_reachable_engine :
  golang.prepare reachable session0
  = Returns
      (Some (dag_Container
             |> From "golang:1.23.4"
             |> WithDirectory "/src" (LoadedDirectory "project")
             |> WithWorkdir "/src"
             |> WithServiceBinding "docker" (golang.Service "24.0")
             |> WithEnvVariable "DOCKER_HOST" "tcp://dockerd:2375"))
      (resolved_once session0).
Proof. reflexivity. Qed.
